(** * django_tables2.columns.manytomanycolumn

    A shallow embedding of [ManyToManyColumn] and the properties of its
    constructor, its two hooks, [render] and [from_field].

    Python values that the column handles are modelled as follows.
    - A text value is a [text]: its characters, held as their UTF-8
      bytes, and whether it is an instance of Django's [SafeText] (a
      [str] that carries [__html__]).
    - A call that may raise returns a [result]: [Ok v] or [Raise e].
    - Keyword arguments are a finite map from names to [pyval].
    - The related manager handed to [render] is the list of records the
      relation holds, read through [exists_] and [all].
    - Iteration is that of Python 3: [map] is lazy, and the consumer of
      an iterator reads a [StopIteration] as its end. *)

From Stdlib Require Import String Ascii List.
From stdpp Require Import gmap strings list fin_maps.

Local Open Scope string_scope.

(** ** Python side: text, exceptions, results *)

Record text := Text { content : string; is_safe : bool }.

(** A plain [str] literal of the source, such as ['-'] or [', ']. *)
Definition str (s : string) : text := Text s false.

Inductive exn := Exception (cls : string) (msg : string).

Inductive result (A : Type) :=
| Ok (a : A)
| Raise (e : exn).
Arguments Ok {A} a.
Arguments Raise {A} e.

Global Instance result_ret : MRet result := fun _ a => Ok a.
Global Instance result_bind : MBind result := fun _ _ k m =>
  match m with
  | Ok a => k a
  | Raise e => Raise e
  end.

(** [[f(x) for x in xs]]: [f] on every item, from left to right; the
    first exception ends it and is raised. It is used to say that [f]
    returns on each item of a list, and what it returns. *)
Fixpoint py_map {A B} (f : A -> result B) (xs : list A) : result (list B) :=
  match xs with
  | [] => Ok []
  | x :: xs' => y ← f x; ys ← py_map f xs'; Ok (y :: ys)
  end.

(** An exception that is an instance of [StopIteration]; [cls] names the
    built-in class the exception belongs to. *)
Definition stops_iteration (e : exn) : bool :=
  match e with
  | Exception cls _ => String.eqb cls "StopIteration"
  end.

(** An iterator, as Python 3 has them, is held as the outcomes of its
    steps, in order. Iterating over a list, no step raises. *)
Definition py_iter {A} (xs : list A) : list (result A) := map Ok xs.

(** [map(f, it)] on Python 3 is an iterator: each of its steps takes the
    next item of [it] and runs [f] on it. Nothing runs before the
    iterator is consumed, and what a step raises leaves that step. *)
Definition lazy_map {A B} (f : A -> result B) (it : list (result A))
  : list (result B) :=
  map (fun step => x ← step; f x) it.

(** What a consumer such as [str.join] collects from an iterator: the
    items of the steps up to the end. A step that raises an instance of
    [StopIteration] is read as the end; any other exception leaves the
    consumer. *)
Fixpoint consume {A} (it : list (result A)) : result (list A) :=
  match it with
  | [] => Ok []
  | Ok x :: it' => xs ← consume it'; Ok (x :: xs)
  | Raise e :: _ => if stops_iteration e then Ok [] else Raise e
  end.

(** [sep.join(items)] builds a plain [str], whatever [sep] is. *)
Definition join (sep : text) (items : list text) : text :=
  str (String.concat (content sep) (map content items)).

Inductive pyval :=
| PyNone
| PyBool (b : bool)
| PyInt (z : Z)
| PyText (t : text).

(** ** django.utils.html and django.utils.safestring

    These three are functions of Django, which the column imports; they
    are written here the way Django documents them. *)

(** [mark_safe(s)]: the same characters, as a [SafeText]. *)
Definition mark_safe (t : text) : text := Text (content t) true.

Definition quot : ascii := ascii_of_nat 34.
Definition apos : ascii := ascii_of_nat 39.

Definition escape_char (c : ascii) : string :=
  if Ascii.eqb c "&" then "&amp;"
  else if Ascii.eqb c "<" then "&lt;"
  else if Ascii.eqb c ">" then "&gt;"
  else if Ascii.eqb c quot then "&quot;"
  else if Ascii.eqb c apos then "&#39;"
  else String c EmptyString.

Fixpoint escape_string (s : string) : string :=
  match s with
  | EmptyString => EmptyString
  | String c s' => escape_char c ++ escape_string s'
  end.

(** [escape(text)]: [&], [<], [>] and the two quotes are replaced by
    entities, and the result is marked safe. *)
Definition escape (t : text) : text := mark_safe (str (escape_string (content t))).

(** [conditional_escape(text)]: "similar to escape(), except that it
    doesn't operate on pre-escaped strings". A value that has [__html__],
    as a [SafeText] has, is returned as it is; anything else goes through
    [escape]. *)
Definition conditional_escape (t : text) : text :=
  if is_safe t then t else escape t.

(** ** django.db.models: field descriptors

    A descriptor is an instance of one of the field classes; a class
    declared by a project names the class it derives from. *)

Inductive FieldClass :=
| AutoField
| BooleanField
| CharField
| DateField
| IntegerField
| TextField
| ForeignKey
| OneToOneField
| ManyToManyField
| Subclass (name : string) (parent : FieldClass).

Record Field := { field_class : FieldClass; verbose_name : text }.

(** [isinstance(field, models.ManyToManyField)] *)
Fixpoint derives_ManyToManyField (c : FieldClass) : bool :=
  match c with
  | ManyToManyField => true
  | Subclass _ parent => derives_ManyToManyField parent
  | _ => false
  end.

Definition isinstance_ManyToManyField (field : Field) : bool :=
  derives_ManyToManyField (field_class field).

(** ** Python's [str]: characters and upper case

    A character is a code point; a text holds the UTF-8 bytes of its
    characters. *)

Definition continuation (c : ascii) : option N :=
  let b := N_of_ascii c in
  if (128 <=? b)%N && (b <? 192)%N then Some (b - 128)%N else None.

(** [s[0]] and [s[1:]]: the first character of a text and what follows
    it. There is none for the empty text; bytes that do not start with
    the encoding of a character stand for no text. *)
Definition decode_first (s : string) : option (N * string) :=
  match s with
  | EmptyString => None
  | String c0 s1 =>
      let b0 := N_of_ascii c0 in
      if (b0 <? 128)%N then Some (b0, s1)
      else if (b0 <? 194)%N then None
      else if (b0 <? 224)%N then
        match s1 with
        | String c1 s2 =>
            match continuation c1 with
            | Some x1 => Some ((b0 - 192) * 64 + x1, s2)%N
            | None => None
            end
        | EmptyString => None
        end
      else if (b0 <? 240)%N then
        match s1 with
        | String c1 (String c2 s3) =>
            match continuation c1, continuation c2 with
            | Some x1, Some x2 =>
                let cp := ((b0 - 224) * 4096 + x1 * 64 + x2)%N in
                if (2048 <=? cp)%N && negb ((55296 <=? cp)%N && (cp <? 57344)%N)
                then Some (cp, s3) else None
            | _, _ => None
            end
        | _ => None
        end
      else if (b0 <? 245)%N then
        match s1 with
        | String c1 (String c2 (String c3 s4)) =>
            match continuation c1, continuation c2, continuation c3 with
            | Some x1, Some x2, Some x3 =>
                let cp := ((b0 - 240) * 262144 + x1 * 4096 + x2 * 64 + x3)%N in
                if (65536 <=? cp)%N && (cp <? 1114112)%N
                then Some (cp, s4) else None
            | _, _, _ => None
            end
        | _ => None
        end
      else None
  end.

(** The UTF-8 bytes of one character. *)
Definition encode (cp : N) : string :=
  if (cp <? 128)%N then String (ascii_of_N cp) EmptyString
  else if (cp <? 2048)%N then
    String (ascii_of_N (192 + cp / 64))
      (String (ascii_of_N (128 + cp mod 64)) EmptyString)
  else if (cp <? 65536)%N then
    String (ascii_of_N (224 + cp / 4096))
      (String (ascii_of_N (128 + (cp / 64) mod 64))
         (String (ascii_of_N (128 + cp mod 64)) EmptyString))
  else
    String (ascii_of_N (240 + cp / 262144))
      (String (ascii_of_N (128 + (cp / 4096) mod 64))
         (String (ascii_of_N (128 + (cp / 64) mod 64))
            (String (ascii_of_N (128 + cp mod 64)) EmptyString))).

(** The code points that are characters: up to U+10FFFF, surrogates
    left out. *)
Definition is_char (cp : N) : bool :=
  (cp <? 1114112)%N && negb ((55296 <=? cp)%N && (cp <? 57344)%N).

Fixpoint encode_all (cps : list N) : string :=
  match cps with
  | [] => EmptyString
  | cp :: cps' => encode cp ++ encode_all cps'
  end.

(** The characters that [str.upper()] changes, each with the characters
    it gives (Python 3.11, Unicode 14.0.0): [a] gives [A], [é] gives [É],
    [ß] gives [SS]. *)
Definition upper_table : list (N * list N) :=
  [
   (97, [65]); (98, [66]); (99, [67]); (100, [68]); (101, [69]); (102, [70]);
   (103, [71]); (104, [72]); (105, [73]); (106, [74]); (107, [75]);
   (108, [76]); (109, [77]); (110, [78]); (111, [79]); (112, [80]);
   (113, [81]); (114, [82]); (115, [83]); (116, [84]); (117, [85]);
   (118, [86]); (119, [87]); (120, [88]); (121, [89]); (122, [90]);
   (181, [924]); (223, [83; 83]); (224, [192]); (225, [193]); (226, [194]);
   (227, [195]); (228, [196]); (229, [197]); (230, [198]); (231, [199]);
   (232, [200]); (233, [201]); (234, [202]); (235, [203]); (236, [204]);
   (237, [205]); (238, [206]); (239, [207]); (240, [208]); (241, [209]);
   (242, [210]); (243, [211]); (244, [212]); (245, [213]); (246, [214]);
   (248, [216]); (249, [217]); (250, [218]); (251, [219]); (252, [220]);
   (253, [221]); (254, [222]); (255, [376]); (257, [256]); (259, [258]);
   (261, [260]); (263, [262]); (265, [264]); (267, [266]); (269, [268]);
   (271, [270]); (273, [272]); (275, [274]); (277, [276]); (279, [278]);
   (281, [280]); (283, [282]); (285, [284]); (287, [286]); (289, [288]);
   (291, [290]); (293, [292]); (295, [294]); (297, [296]); (299, [298]);
   (301, [300]); (303, [302]); (305, [73]); (307, [306]); (309, [308]);
   (311, [310]); (314, [313]); (316, [315]); (318, [317]); (320, [319]);
   (322, [321]); (324, [323]); (326, [325]); (328, [327]); (329, [700; 78]);
   (331, [330]); (333, [332]); (335, [334]); (337, [336]); (339, [338]);
   (341, [340]); (343, [342]); (345, [344]); (347, [346]); (349, [348]);
   (351, [350]); (353, [352]); (355, [354]); (357, [356]); (359, [358]);
   (361, [360]); (363, [362]); (365, [364]); (367, [366]); (369, [368]);
   (371, [370]); (373, [372]); (375, [374]); (378, [377]); (380, [379]);
   (382, [381]); (383, [83]); (384, [579]); (387, [386]); (389, [388]);
   (392, [391]); (396, [395]); (402, [401]); (405, [502]); (409, [408]);
   (410, [573]); (414, [544]); (417, [416]); (419, [418]); (421, [420]);
   (424, [423]); (429, [428]); (432, [431]); (436, [435]); (438, [437]);
   (441, [440]); (445, [444]); (447, [503]); (453, [452]); (454, [452]);
   (456, [455]); (457, [455]); (459, [458]); (460, [458]); (462, [461]);
   (464, [463]); (466, [465]); (468, [467]); (470, [469]); (472, [471]);
   (474, [473]); (476, [475]); (477, [398]); (479, [478]); (481, [480]);
   (483, [482]); (485, [484]); (487, [486]); (489, [488]); (491, [490]);
   (493, [492]); (495, [494]); (496, [74; 780]); (498, [497]); (499, [497]);
   (501, [500]); (505, [504]); (507, [506]); (509, [508]); (511, [510]);
   (513, [512]); (515, [514]); (517, [516]); (519, [518]); (521, [520]);
   (523, [522]); (525, [524]); (527, [526]); (529, [528]); (531, [530]);
   (533, [532]); (535, [534]); (537, [536]); (539, [538]); (541, [540]);
   (543, [542]); (547, [546]); (549, [548]); (551, [550]); (553, [552]);
   (555, [554]); (557, [556]); (559, [558]); (561, [560]); (563, [562]);
   (572, [571]); (575, [11390]); (576, [11391]); (578, [577]); (583, [582]);
   (585, [584]); (587, [586]); (589, [588]); (591, [590]); (592, [11375]);
   (593, [11373]); (594, [11376]); (595, [385]); (596, [390]); (598, [393]);
   (599, [394]); (601, [399]); (603, [400]); (604, [42923]); (608, [403]);
   (609, [42924]); (611, [404]); (613, [42893]); (614, [42922]); (616, [407]);
   (617, [406]); (618, [42926]); (619, [11362]); (620, [42925]); (623, [412]);
   (625, [11374]); (626, [413]); (629, [415]); (637, [11364]); (640, [422]);
   (642, [42949]); (643, [425]); (647, [42929]); (648, [430]); (649, [580]);
   (650, [433]); (651, [434]); (652, [581]); (658, [439]); (669, [42930]);
   (670, [42928]); (837, [921]); (881, [880]); (883, [882]); (887, [886]);
   (891, [1021]); (892, [1022]); (893, [1023]); (912, [921; 776; 769]);
   (940, [902]); (941, [904]); (942, [905]); (943, [906]);
   (944, [933; 776; 769]); (945, [913]); (946, [914]); (947, [915]);
   (948, [916]); (949, [917]); (950, [918]); (951, [919]); (952, [920]);
   (953, [921]); (954, [922]); (955, [923]); (956, [924]); (957, [925]);
   (958, [926]); (959, [927]); (960, [928]); (961, [929]); (962, [931]);
   (963, [931]); (964, [932]); (965, [933]); (966, [934]); (967, [935]);
   (968, [936]); (969, [937]); (970, [938]); (971, [939]); (972, [908]);
   (973, [910]); (974, [911]); (976, [914]); (977, [920]); (981, [934]);
   (982, [928]); (983, [975]); (985, [984]); (987, [986]); (989, [988]);
   (991, [990]); (993, [992]); (995, [994]); (997, [996]); (999, [998]);
   (1001, [1000]); (1003, [1002]); (1005, [1004]); (1007, [1006]);
   (1008, [922]); (1009, [929]); (1010, [1017]); (1011, [895]); (1013, [917]);
   (1016, [1015]); (1019, [1018]); (1072, [1040]); (1073, [1041]);
   (1074, [1042]); (1075, [1043]); (1076, [1044]); (1077, [1045]);
   (1078, [1046]); (1079, [1047]); (1080, [1048]); (1081, [1049]);
   (1082, [1050]); (1083, [1051]); (1084, [1052]); (1085, [1053]);
   (1086, [1054]); (1087, [1055]); (1088, [1056]); (1089, [1057]);
   (1090, [1058]); (1091, [1059]); (1092, [1060]); (1093, [1061]);
   (1094, [1062]); (1095, [1063]); (1096, [1064]); (1097, [1065]);
   (1098, [1066]); (1099, [1067]); (1100, [1068]); (1101, [1069]);
   (1102, [1070]); (1103, [1071]); (1104, [1024]); (1105, [1025]);
   (1106, [1026]); (1107, [1027]); (1108, [1028]); (1109, [1029]);
   (1110, [1030]); (1111, [1031]); (1112, [1032]); (1113, [1033]);
   (1114, [1034]); (1115, [1035]); (1116, [1036]); (1117, [1037]);
   (1118, [1038]); (1119, [1039]); (1121, [1120]); (1123, [1122]);
   (1125, [1124]); (1127, [1126]); (1129, [1128]); (1131, [1130]);
   (1133, [1132]); (1135, [1134]); (1137, [1136]); (1139, [1138]);
   (1141, [1140]); (1143, [1142]); (1145, [1144]); (1147, [1146]);
   (1149, [1148]); (1151, [1150]); (1153, [1152]); (1163, [1162]);
   (1165, [1164]); (1167, [1166]); (1169, [1168]); (1171, [1170]);
   (1173, [1172]); (1175, [1174]); (1177, [1176]); (1179, [1178]);
   (1181, [1180]); (1183, [1182]); (1185, [1184]); (1187, [1186]);
   (1189, [1188]); (1191, [1190]); (1193, [1192]); (1195, [1194]);
   (1197, [1196]); (1199, [1198]); (1201, [1200]); (1203, [1202]);
   (1205, [1204]); (1207, [1206]); (1209, [1208]); (1211, [1210]);
   (1213, [1212]); (1215, [1214]); (1218, [1217]); (1220, [1219]);
   (1222, [1221]); (1224, [1223]); (1226, [1225]); (1228, [1227]);
   (1230, [1229]); (1231, [1216]); (1233, [1232]); (1235, [1234]);
   (1237, [1236]); (1239, [1238]); (1241, [1240]); (1243, [1242]);
   (1245, [1244]); (1247, [1246]); (1249, [1248]); (1251, [1250]);
   (1253, [1252]); (1255, [1254]); (1257, [1256]); (1259, [1258]);
   (1261, [1260]); (1263, [1262]); (1265, [1264]); (1267, [1266]);
   (1269, [1268]); (1271, [1270]); (1273, [1272]); (1275, [1274]);
   (1277, [1276]); (1279, [1278]); (1281, [1280]); (1283, [1282]);
   (1285, [1284]); (1287, [1286]); (1289, [1288]); (1291, [1290]);
   (1293, [1292]); (1295, [1294]); (1297, [1296]); (1299, [1298]);
   (1301, [1300]); (1303, [1302]); (1305, [1304]); (1307, [1306]);
   (1309, [1308]); (1311, [1310]); (1313, [1312]); (1315, [1314]);
   (1317, [1316]); (1319, [1318]); (1321, [1320]); (1323, [1322]);
   (1325, [1324]); (1327, [1326]); (1377, [1329]); (1378, [1330]);
   (1379, [1331]); (1380, [1332]); (1381, [1333]); (1382, [1334]);
   (1383, [1335]); (1384, [1336]); (1385, [1337]); (1386, [1338]);
   (1387, [1339]); (1388, [1340]); (1389, [1341]); (1390, [1342]);
   (1391, [1343]); (1392, [1344]); (1393, [1345]); (1394, [1346]);
   (1395, [1347]); (1396, [1348]); (1397, [1349]); (1398, [1350]);
   (1399, [1351]); (1400, [1352]); (1401, [1353]); (1402, [1354]);
   (1403, [1355]); (1404, [1356]); (1405, [1357]); (1406, [1358]);
   (1407, [1359]); (1408, [1360]); (1409, [1361]); (1410, [1362]);
   (1411, [1363]); (1412, [1364]); (1413, [1365]); (1414, [1366]);
   (1415, [1333; 1362]); (4304, [7312]); (4305, [7313]); (4306, [7314]);
   (4307, [7315]); (4308, [7316]); (4309, [7317]); (4310, [7318]);
   (4311, [7319]); (4312, [7320]); (4313, [7321]); (4314, [7322]);
   (4315, [7323]); (4316, [7324]); (4317, [7325]); (4318, [7326]);
   (4319, [7327]); (4320, [7328]); (4321, [7329]); (4322, [7330]);
   (4323, [7331]); (4324, [7332]); (4325, [7333]); (4326, [7334]);
   (4327, [7335]); (4328, [7336]); (4329, [7337]); (4330, [7338]);
   (4331, [7339]); (4332, [7340]); (4333, [7341]); (4334, [7342]);
   (4335, [7343]); (4336, [7344]); (4337, [7345]); (4338, [7346]);
   (4339, [7347]); (4340, [7348]); (4341, [7349]); (4342, [7350]);
   (4343, [7351]); (4344, [7352]); (4345, [7353]); (4346, [7354]);
   (4349, [7357]); (4350, [7358]); (4351, [7359]); (5112, [5104]);
   (5113, [5105]); (5114, [5106]); (5115, [5107]); (5116, [5108]);
   (5117, [5109]); (7296, [1042]); (7297, [1044]); (7298, [1054]);
   (7299, [1057]); (7300, [1058]); (7301, [1058]); (7302, [1066]);
   (7303, [1122]); (7304, [42570]); (7545, [42877]); (7549, [11363]);
   (7566, [42950]); (7681, [7680]); (7683, [7682]); (7685, [7684]);
   (7687, [7686]); (7689, [7688]); (7691, [7690]); (7693, [7692]);
   (7695, [7694]); (7697, [7696]); (7699, [7698]); (7701, [7700]);
   (7703, [7702]); (7705, [7704]); (7707, [7706]); (7709, [7708]);
   (7711, [7710]); (7713, [7712]); (7715, [7714]); (7717, [7716]);
   (7719, [7718]); (7721, [7720]); (7723, [7722]); (7725, [7724]);
   (7727, [7726]); (7729, [7728]); (7731, [7730]); (7733, [7732]);
   (7735, [7734]); (7737, [7736]); (7739, [7738]); (7741, [7740]);
   (7743, [7742]); (7745, [7744]); (7747, [7746]); (7749, [7748]);
   (7751, [7750]); (7753, [7752]); (7755, [7754]); (7757, [7756]);
   (7759, [7758]); (7761, [7760]); (7763, [7762]); (7765, [7764]);
   (7767, [7766]); (7769, [7768]); (7771, [7770]); (7773, [7772]);
   (7775, [7774]); (7777, [7776]); (7779, [7778]); (7781, [7780]);
   (7783, [7782]); (7785, [7784]); (7787, [7786]); (7789, [7788]);
   (7791, [7790]); (7793, [7792]); (7795, [7794]); (7797, [7796]);
   (7799, [7798]); (7801, [7800]); (7803, [7802]); (7805, [7804]);
   (7807, [7806]); (7809, [7808]); (7811, [7810]); (7813, [7812]);
   (7815, [7814]); (7817, [7816]); (7819, [7818]); (7821, [7820]);
   (7823, [7822]); (7825, [7824]); (7827, [7826]); (7829, [7828]);
   (7830, [72; 817]); (7831, [84; 776]); (7832, [87; 778]); (7833, [89; 778]);
   (7834, [65; 702]); (7835, [7776]); (7841, [7840]); (7843, [7842]);
   (7845, [7844]); (7847, [7846]); (7849, [7848]); (7851, [7850]);
   (7853, [7852]); (7855, [7854]); (7857, [7856]); (7859, [7858]);
   (7861, [7860]); (7863, [7862]); (7865, [7864]); (7867, [7866]);
   (7869, [7868]); (7871, [7870]); (7873, [7872]); (7875, [7874]);
   (7877, [7876]); (7879, [7878]); (7881, [7880]); (7883, [7882]);
   (7885, [7884]); (7887, [7886]); (7889, [7888]); (7891, [7890]);
   (7893, [7892]); (7895, [7894]); (7897, [7896]); (7899, [7898]);
   (7901, [7900]); (7903, [7902]); (7905, [7904]); (7907, [7906]);
   (7909, [7908]); (7911, [7910]); (7913, [7912]); (7915, [7914]);
   (7917, [7916]); (7919, [7918]); (7921, [7920]); (7923, [7922]);
   (7925, [7924]); (7927, [7926]); (7929, [7928]); (7931, [7930]);
   (7933, [7932]); (7935, [7934]); (7936, [7944]); (7937, [7945]);
   (7938, [7946]); (7939, [7947]); (7940, [7948]); (7941, [7949]);
   (7942, [7950]); (7943, [7951]); (7952, [7960]); (7953, [7961]);
   (7954, [7962]); (7955, [7963]); (7956, [7964]); (7957, [7965]);
   (7968, [7976]); (7969, [7977]); (7970, [7978]); (7971, [7979]);
   (7972, [7980]); (7973, [7981]); (7974, [7982]); (7975, [7983]);
   (7984, [7992]); (7985, [7993]); (7986, [7994]); (7987, [7995]);
   (7988, [7996]); (7989, [7997]); (7990, [7998]); (7991, [7999]);
   (8000, [8008]); (8001, [8009]); (8002, [8010]); (8003, [8011]);
   (8004, [8012]); (8005, [8013]); (8016, [933; 787]); (8017, [8025]);
   (8018, [933; 787; 768]); (8019, [8027]); (8020, [933; 787; 769]);
   (8021, [8029]); (8022, [933; 787; 834]); (8023, [8031]); (8032, [8040]);
   (8033, [8041]); (8034, [8042]); (8035, [8043]); (8036, [8044]);
   (8037, [8045]); (8038, [8046]); (8039, [8047]); (8048, [8122]);
   (8049, [8123]); (8050, [8136]); (8051, [8137]); (8052, [8138]);
   (8053, [8139]); (8054, [8154]); (8055, [8155]); (8056, [8184]);
   (8057, [8185]); (8058, [8170]); (8059, [8171]); (8060, [8186]);
   (8061, [8187]); (8064, [7944; 921]); (8065, [7945; 921]);
   (8066, [7946; 921]); (8067, [7947; 921]); (8068, [7948; 921]);
   (8069, [7949; 921]); (8070, [7950; 921]); (8071, [7951; 921]);
   (8072, [7944; 921]); (8073, [7945; 921]); (8074, [7946; 921]);
   (8075, [7947; 921]); (8076, [7948; 921]); (8077, [7949; 921]);
   (8078, [7950; 921]); (8079, [7951; 921]); (8080, [7976; 921]);
   (8081, [7977; 921]); (8082, [7978; 921]); (8083, [7979; 921]);
   (8084, [7980; 921]); (8085, [7981; 921]); (8086, [7982; 921]);
   (8087, [7983; 921]); (8088, [7976; 921]); (8089, [7977; 921]);
   (8090, [7978; 921]); (8091, [7979; 921]); (8092, [7980; 921]);
   (8093, [7981; 921]); (8094, [7982; 921]); (8095, [7983; 921]);
   (8096, [8040; 921]); (8097, [8041; 921]); (8098, [8042; 921]);
   (8099, [8043; 921]); (8100, [8044; 921]); (8101, [8045; 921]);
   (8102, [8046; 921]); (8103, [8047; 921]); (8104, [8040; 921]);
   (8105, [8041; 921]); (8106, [8042; 921]); (8107, [8043; 921]);
   (8108, [8044; 921]); (8109, [8045; 921]); (8110, [8046; 921]);
   (8111, [8047; 921]); (8112, [8120]); (8113, [8121]); (8114, [8122; 921]);
   (8115, [913; 921]); (8116, [902; 921]); (8118, [913; 834]);
   (8119, [913; 834; 921]); (8124, [913; 921]); (8126, [921]);
   (8130, [8138; 921]); (8131, [919; 921]); (8132, [905; 921]);
   (8134, [919; 834]); (8135, [919; 834; 921]); (8140, [919; 921]);
   (8144, [8152]); (8145, [8153]); (8146, [921; 776; 768]);
   (8147, [921; 776; 769]); (8150, [921; 834]); (8151, [921; 776; 834]);
   (8160, [8168]); (8161, [8169]); (8162, [933; 776; 768]);
   (8163, [933; 776; 769]); (8164, [929; 787]); (8165, [8172]);
   (8166, [933; 834]); (8167, [933; 776; 834]); (8178, [8186; 921]);
   (8179, [937; 921]); (8180, [911; 921]); (8182, [937; 834]);
   (8183, [937; 834; 921]); (8188, [937; 921]); (8526, [8498]);
   (8560, [8544]); (8561, [8545]); (8562, [8546]); (8563, [8547]);
   (8564, [8548]); (8565, [8549]); (8566, [8550]); (8567, [8551]);
   (8568, [8552]); (8569, [8553]); (8570, [8554]); (8571, [8555]);
   (8572, [8556]); (8573, [8557]); (8574, [8558]); (8575, [8559]);
   (8580, [8579]); (9424, [9398]); (9425, [9399]); (9426, [9400]);
   (9427, [9401]); (9428, [9402]); (9429, [9403]); (9430, [9404]);
   (9431, [9405]); (9432, [9406]); (9433, [9407]); (9434, [9408]);
   (9435, [9409]); (9436, [9410]); (9437, [9411]); (9438, [9412]);
   (9439, [9413]); (9440, [9414]); (9441, [9415]); (9442, [9416]);
   (9443, [9417]); (9444, [9418]); (9445, [9419]); (9446, [9420]);
   (9447, [9421]); (9448, [9422]); (9449, [9423]); (11312, [11264]);
   (11313, [11265]); (11314, [11266]); (11315, [11267]); (11316, [11268]);
   (11317, [11269]); (11318, [11270]); (11319, [11271]); (11320, [11272]);
   (11321, [11273]); (11322, [11274]); (11323, [11275]); (11324, [11276]);
   (11325, [11277]); (11326, [11278]); (11327, [11279]); (11328, [11280]);
   (11329, [11281]); (11330, [11282]); (11331, [11283]); (11332, [11284]);
   (11333, [11285]); (11334, [11286]); (11335, [11287]); (11336, [11288]);
   (11337, [11289]); (11338, [11290]); (11339, [11291]); (11340, [11292]);
   (11341, [11293]); (11342, [11294]); (11343, [11295]); (11344, [11296]);
   (11345, [11297]); (11346, [11298]); (11347, [11299]); (11348, [11300]);
   (11349, [11301]); (11350, [11302]); (11351, [11303]); (11352, [11304]);
   (11353, [11305]); (11354, [11306]); (11355, [11307]); (11356, [11308]);
   (11357, [11309]); (11358, [11310]); (11359, [11311]); (11361, [11360]);
   (11365, [570]); (11366, [574]); (11368, [11367]); (11370, [11369]);
   (11372, [11371]); (11379, [11378]); (11382, [11381]); (11393, [11392]);
   (11395, [11394]); (11397, [11396]); (11399, [11398]); (11401, [11400]);
   (11403, [11402]); (11405, [11404]); (11407, [11406]); (11409, [11408]);
   (11411, [11410]); (11413, [11412]); (11415, [11414]); (11417, [11416]);
   (11419, [11418]); (11421, [11420]); (11423, [11422]); (11425, [11424]);
   (11427, [11426]); (11429, [11428]); (11431, [11430]); (11433, [11432]);
   (11435, [11434]); (11437, [11436]); (11439, [11438]); (11441, [11440]);
   (11443, [11442]); (11445, [11444]); (11447, [11446]); (11449, [11448]);
   (11451, [11450]); (11453, [11452]); (11455, [11454]); (11457, [11456]);
   (11459, [11458]); (11461, [11460]); (11463, [11462]); (11465, [11464]);
   (11467, [11466]); (11469, [11468]); (11471, [11470]); (11473, [11472]);
   (11475, [11474]); (11477, [11476]); (11479, [11478]); (11481, [11480]);
   (11483, [11482]); (11485, [11484]); (11487, [11486]); (11489, [11488]);
   (11491, [11490]); (11500, [11499]); (11502, [11501]); (11507, [11506]);
   (11520, [4256]); (11521, [4257]); (11522, [4258]); (11523, [4259]);
   (11524, [4260]); (11525, [4261]); (11526, [4262]); (11527, [4263]);
   (11528, [4264]); (11529, [4265]); (11530, [4266]); (11531, [4267]);
   (11532, [4268]); (11533, [4269]); (11534, [4270]); (11535, [4271]);
   (11536, [4272]); (11537, [4273]); (11538, [4274]); (11539, [4275]);
   (11540, [4276]); (11541, [4277]); (11542, [4278]); (11543, [4279]);
   (11544, [4280]); (11545, [4281]); (11546, [4282]); (11547, [4283]);
   (11548, [4284]); (11549, [4285]); (11550, [4286]); (11551, [4287]);
   (11552, [4288]); (11553, [4289]); (11554, [4290]); (11555, [4291]);
   (11556, [4292]); (11557, [4293]); (11559, [4295]); (11565, [4301]);
   (42561, [42560]); (42563, [42562]); (42565, [42564]); (42567, [42566]);
   (42569, [42568]); (42571, [42570]); (42573, [42572]); (42575, [42574]);
   (42577, [42576]); (42579, [42578]); (42581, [42580]); (42583, [42582]);
   (42585, [42584]); (42587, [42586]); (42589, [42588]); (42591, [42590]);
   (42593, [42592]); (42595, [42594]); (42597, [42596]); (42599, [42598]);
   (42601, [42600]); (42603, [42602]); (42605, [42604]); (42625, [42624]);
   (42627, [42626]); (42629, [42628]); (42631, [42630]); (42633, [42632]);
   (42635, [42634]); (42637, [42636]); (42639, [42638]); (42641, [42640]);
   (42643, [42642]); (42645, [42644]); (42647, [42646]); (42649, [42648]);
   (42651, [42650]); (42787, [42786]); (42789, [42788]); (42791, [42790]);
   (42793, [42792]); (42795, [42794]); (42797, [42796]); (42799, [42798]);
   (42803, [42802]); (42805, [42804]); (42807, [42806]); (42809, [42808]);
   (42811, [42810]); (42813, [42812]); (42815, [42814]); (42817, [42816]);
   (42819, [42818]); (42821, [42820]); (42823, [42822]); (42825, [42824]);
   (42827, [42826]); (42829, [42828]); (42831, [42830]); (42833, [42832]);
   (42835, [42834]); (42837, [42836]); (42839, [42838]); (42841, [42840]);
   (42843, [42842]); (42845, [42844]); (42847, [42846]); (42849, [42848]);
   (42851, [42850]); (42853, [42852]); (42855, [42854]); (42857, [42856]);
   (42859, [42858]); (42861, [42860]); (42863, [42862]); (42874, [42873]);
   (42876, [42875]); (42879, [42878]); (42881, [42880]); (42883, [42882]);
   (42885, [42884]); (42887, [42886]); (42892, [42891]); (42897, [42896]);
   (42899, [42898]); (42900, [42948]); (42903, [42902]); (42905, [42904]);
   (42907, [42906]); (42909, [42908]); (42911, [42910]); (42913, [42912]);
   (42915, [42914]); (42917, [42916]); (42919, [42918]); (42921, [42920]);
   (42933, [42932]); (42935, [42934]); (42937, [42936]); (42939, [42938]);
   (42941, [42940]); (42943, [42942]); (42945, [42944]); (42947, [42946]);
   (42952, [42951]); (42954, [42953]); (42961, [42960]); (42967, [42966]);
   (42969, [42968]); (42998, [42997]); (43859, [42931]); (43888, [5024]);
   (43889, [5025]); (43890, [5026]); (43891, [5027]); (43892, [5028]);
   (43893, [5029]); (43894, [5030]); (43895, [5031]); (43896, [5032]);
   (43897, [5033]); (43898, [5034]); (43899, [5035]); (43900, [5036]);
   (43901, [5037]); (43902, [5038]); (43903, [5039]); (43904, [5040]);
   (43905, [5041]); (43906, [5042]); (43907, [5043]); (43908, [5044]);
   (43909, [5045]); (43910, [5046]); (43911, [5047]); (43912, [5048]);
   (43913, [5049]); (43914, [5050]); (43915, [5051]); (43916, [5052]);
   (43917, [5053]); (43918, [5054]); (43919, [5055]); (43920, [5056]);
   (43921, [5057]); (43922, [5058]); (43923, [5059]); (43924, [5060]);
   (43925, [5061]); (43926, [5062]); (43927, [5063]); (43928, [5064]);
   (43929, [5065]); (43930, [5066]); (43931, [5067]); (43932, [5068]);
   (43933, [5069]); (43934, [5070]); (43935, [5071]); (43936, [5072]);
   (43937, [5073]); (43938, [5074]); (43939, [5075]); (43940, [5076]);
   (43941, [5077]); (43942, [5078]); (43943, [5079]); (43944, [5080]);
   (43945, [5081]); (43946, [5082]); (43947, [5083]); (43948, [5084]);
   (43949, [5085]); (43950, [5086]); (43951, [5087]); (43952, [5088]);
   (43953, [5089]); (43954, [5090]); (43955, [5091]); (43956, [5092]);
   (43957, [5093]); (43958, [5094]); (43959, [5095]); (43960, [5096]);
   (43961, [5097]); (43962, [5098]); (43963, [5099]); (43964, [5100]);
   (43965, [5101]); (43966, [5102]); (43967, [5103]); (64256, [70; 70]);
   (64257, [70; 73]); (64258, [70; 76]); (64259, [70; 70; 73]);
   (64260, [70; 70; 76]); (64261, [83; 84]); (64262, [83; 84]);
   (64275, [1348; 1350]); (64276, [1348; 1333]); (64277, [1348; 1339]);
   (64278, [1358; 1350]); (64279, [1348; 1341]); (65345, [65313]);
   (65346, [65314]); (65347, [65315]); (65348, [65316]); (65349, [65317]);
   (65350, [65318]); (65351, [65319]); (65352, [65320]); (65353, [65321]);
   (65354, [65322]); (65355, [65323]); (65356, [65324]); (65357, [65325]);
   (65358, [65326]); (65359, [65327]); (65360, [65328]); (65361, [65329]);
   (65362, [65330]); (65363, [65331]); (65364, [65332]); (65365, [65333]);
   (65366, [65334]); (65367, [65335]); (65368, [65336]); (65369, [65337]);
   (65370, [65338]); (66600, [66560]); (66601, [66561]); (66602, [66562]);
   (66603, [66563]); (66604, [66564]); (66605, [66565]); (66606, [66566]);
   (66607, [66567]); (66608, [66568]); (66609, [66569]); (66610, [66570]);
   (66611, [66571]); (66612, [66572]); (66613, [66573]); (66614, [66574]);
   (66615, [66575]); (66616, [66576]); (66617, [66577]); (66618, [66578]);
   (66619, [66579]); (66620, [66580]); (66621, [66581]); (66622, [66582]);
   (66623, [66583]); (66624, [66584]); (66625, [66585]); (66626, [66586]);
   (66627, [66587]); (66628, [66588]); (66629, [66589]); (66630, [66590]);
   (66631, [66591]); (66632, [66592]); (66633, [66593]); (66634, [66594]);
   (66635, [66595]); (66636, [66596]); (66637, [66597]); (66638, [66598]);
   (66639, [66599]); (66776, [66736]); (66777, [66737]); (66778, [66738]);
   (66779, [66739]); (66780, [66740]); (66781, [66741]); (66782, [66742]);
   (66783, [66743]); (66784, [66744]); (66785, [66745]); (66786, [66746]);
   (66787, [66747]); (66788, [66748]); (66789, [66749]); (66790, [66750]);
   (66791, [66751]); (66792, [66752]); (66793, [66753]); (66794, [66754]);
   (66795, [66755]); (66796, [66756]); (66797, [66757]); (66798, [66758]);
   (66799, [66759]); (66800, [66760]); (66801, [66761]); (66802, [66762]);
   (66803, [66763]); (66804, [66764]); (66805, [66765]); (66806, [66766]);
   (66807, [66767]); (66808, [66768]); (66809, [66769]); (66810, [66770]);
   (66811, [66771]); (66967, [66928]); (66968, [66929]); (66969, [66930]);
   (66970, [66931]); (66971, [66932]); (66972, [66933]); (66973, [66934]);
   (66974, [66935]); (66975, [66936]); (66976, [66937]); (66977, [66938]);
   (66979, [66940]); (66980, [66941]); (66981, [66942]); (66982, [66943]);
   (66983, [66944]); (66984, [66945]); (66985, [66946]); (66986, [66947]);
   (66987, [66948]); (66988, [66949]); (66989, [66950]); (66990, [66951]);
   (66991, [66952]); (66992, [66953]); (66993, [66954]); (66995, [66956]);
   (66996, [66957]); (66997, [66958]); (66998, [66959]); (66999, [66960]);
   (67000, [66961]); (67001, [66962]); (67003, [66964]); (67004, [66965]);
   (68800, [68736]); (68801, [68737]); (68802, [68738]); (68803, [68739]);
   (68804, [68740]); (68805, [68741]); (68806, [68742]); (68807, [68743]);
   (68808, [68744]); (68809, [68745]); (68810, [68746]); (68811, [68747]);
   (68812, [68748]); (68813, [68749]); (68814, [68750]); (68815, [68751]);
   (68816, [68752]); (68817, [68753]); (68818, [68754]); (68819, [68755]);
   (68820, [68756]); (68821, [68757]); (68822, [68758]); (68823, [68759]);
   (68824, [68760]); (68825, [68761]); (68826, [68762]); (68827, [68763]);
   (68828, [68764]); (68829, [68765]); (68830, [68766]); (68831, [68767]);
   (68832, [68768]); (68833, [68769]); (68834, [68770]); (68835, [68771]);
   (68836, [68772]); (68837, [68773]); (68838, [68774]); (68839, [68775]);
   (68840, [68776]); (68841, [68777]); (68842, [68778]); (68843, [68779]);
   (68844, [68780]); (68845, [68781]); (68846, [68782]); (68847, [68783]);
   (68848, [68784]); (68849, [68785]); (68850, [68786]); (71872, [71840]);
   (71873, [71841]); (71874, [71842]); (71875, [71843]); (71876, [71844]);
   (71877, [71845]); (71878, [71846]); (71879, [71847]); (71880, [71848]);
   (71881, [71849]); (71882, [71850]); (71883, [71851]); (71884, [71852]);
   (71885, [71853]); (71886, [71854]); (71887, [71855]); (71888, [71856]);
   (71889, [71857]); (71890, [71858]); (71891, [71859]); (71892, [71860]);
   (71893, [71861]); (71894, [71862]); (71895, [71863]); (71896, [71864]);
   (71897, [71865]); (71898, [71866]); (71899, [71867]); (71900, [71868]);
   (71901, [71869]); (71902, [71870]); (71903, [71871]); (93792, [93760]);
   (93793, [93761]); (93794, [93762]); (93795, [93763]); (93796, [93764]);
   (93797, [93765]); (93798, [93766]); (93799, [93767]); (93800, [93768]);
   (93801, [93769]); (93802, [93770]); (93803, [93771]); (93804, [93772]);
   (93805, [93773]); (93806, [93774]); (93807, [93775]); (93808, [93776]);
   (93809, [93777]); (93810, [93778]); (93811, [93779]); (93812, [93780]);
   (93813, [93781]); (93814, [93782]); (93815, [93783]); (93816, [93784]);
   (93817, [93785]); (93818, [93786]); (93819, [93787]); (93820, [93788]);
   (93821, [93789]); (93822, [93790]); (93823, [93791]); (125218, [125184]);
   (125219, [125185]); (125220, [125186]); (125221, [125187]);
   (125222, [125188]); (125223, [125189]); (125224, [125190]);
   (125225, [125191]); (125226, [125192]); (125227, [125193]);
   (125228, [125194]); (125229, [125195]); (125230, [125196]);
   (125231, [125197]); (125232, [125198]); (125233, [125199]);
   (125234, [125200]); (125235, [125201]); (125236, [125202]);
   (125237, [125203]); (125238, [125204]); (125239, [125205]);
   (125240, [125206]); (125241, [125207]); (125242, [125208]);
   (125243, [125209]); (125244, [125210]); (125245, [125211]);
   (125246, [125212]); (125247, [125213]); (125248, [125214]);
   (125249, [125215]); (125250, [125216]); (125251, [125217])
  ]%N.

Fixpoint assoc (cp : N) (table : list (N * list N)) : option (list N) :=
  match table with
  | [] => None
  | (cp', ups) :: table' => if (cp =? cp')%N then Some ups else assoc cp table'
  end.

(** [c.upper()] for one character [c]. *)
Definition upper (cp : N) : list N :=
  match assoc cp upper_table with
  | Some ups => ups
  | None => [cp]
  end.

(** ** django_tables2.utils *)

(** Modelled from the spec: [ucfirst] of [django_tables2/utils.py], which
    is not among the sources. The spec gives "the field's human label
    with its first character upper-cased": [s[0].upper() + s[1:]]. A
    label without a first character has nothing to upper-case and is
    left as it is. *)
Definition ucfirst (s : text) : text :=
  match decode_first (content s) with
  | Some (cp, rest) => str (encode_all (upper cp) ++ rest)
  | None => str (content s)
  end.

(** ** django_tables2.columns.base *)

Module Column.

(** Modelled from the spec: the base [Column] of
    [django_tables2/columns/base.py], which is not among the sources.
    The spec gives it "configuration slots (orderable, verbose_name,
    accessor path, etc.)" filled from the configuration that the
    subclass constructor forwards. *)
Record instance := { positional : list pyval; options : gmap string pyval }.

Definition __init__ (args : list pyval) (kwargs : gmap string pyval) : instance :=
  {| positional := args; options := kwargs |}.

Definition orderable (self : instance) : option pyval := options self !! "orderable".
Definition verbose_name (self : instance) : option pyval := options self !! "verbose_name".

End Column.

(** [kwargs.setdefault(key, value)], seen as the dictionary it leaves. *)
Definition setdefault (key : string) (value : pyval) (kwargs : gmap string pyval)
  : gmap string pyval :=
  match kwargs !! key with
  | Some _ => kwargs
  | None => <[key := value]> kwargs
  end.

(** ** The related manager *)

Record Manager (Obj : Type) := { related : list Obj }.
Arguments related {Obj} _.

(** [value.exists()] *)
Definition exists_ {Obj} (qs : Manager Obj) : bool :=
  match related qs with
  | [] => false
  | _ :: _ => true
  end.

(** [qs.all()] *)
Definition all {Obj} (qs : Manager Obj) : list Obj := related qs.

(** ** ManyToManyColumn *)

Module ManyToManyColumn.
Section Class.

(** The related records and [django.utils.encoding.force_text] on one of
    them; it runs the record's own string conversion, which may raise. *)
Context {Obj : Type}.
Variable force_text : Obj -> result text.

(** What an instance holds: the two hooks when the constructor stored
    them as instance attributes, the separator, and the base column. *)
Record instance := {
  transform_attr : option (Obj -> result text);
  filter_attr : option (Manager Obj -> result (list Obj));
  separator : text;
  base : Column.instance
}.

(** [separator] is [None] when the caller leaves the default [', ']. *)
Definition __init__ (transform : option (Obj -> result text))
    (filter : option (Manager Obj -> result (list Obj)))
    (separator : option text)
    (args : list pyval) (kwargs : gmap string pyval) : instance :=
  let kwargs := setdefault "orderable" (PyBool false) kwargs in
  {| transform_attr := transform;
     filter_attr := filter;
     separator := default (str ", ") separator;
     base := Column.__init__ args kwargs |}.

(** The methods of the class. *)
Definition transform (self : instance) (obj : Obj) : result text :=
  force_text obj.

Definition filter (self : instance) (qs : Manager Obj) : result (list Obj) :=
  Ok (all qs).

(** [self.transform] and [self.filter]: the instance attribute when there
    is one, the method of the class otherwise. *)
Definition self_transform (self : instance) : Obj -> result text :=
  match transform_attr self with
  | Some f => f
  | None => transform self
  end.

Definition self_filter (self : instance) : Manager Obj -> result (list Obj) :=
  match filter_attr self with
  | Some f => f
  | None => filter self
  end.

Definition render (self : instance) (value : Manager Obj) : result text :=
  if negb (exists_ value) then Ok (str "-")
  else
    let sep := conditional_escape (separator self) in
    records ← self_filter self value;
    items ← consume (lazy_map (fun text => Ok (conditional_escape text))
                       (lazy_map (self_transform self) (py_iter records)));
    Ok (mark_safe (join sep items)).

Definition from_field (field : Field) : option instance :=
  if isinstance_ManyToManyField field
  then Some (__init__ None None None []
               {[ "verbose_name" := PyText (ucfirst (verbose_name field)) ]})
  else None.

End Class.

Arguments instance Obj : clear implicits.

End ManyToManyColumn.

(** ** Text that cannot open markup

    [inert s] holds when a browser reads [s] as characters only: it has
    none of [<], [>] and the two quotes, and every [&] in it starts one of
    the five entities that [escape] writes. *)

Definition entities : list string := ["amp;"; "lt;"; "gt;"; "quot;"; "#39;"].

Definition opens_markup (c : ascii) : bool :=
  Ascii.eqb c "<" || Ascii.eqb c ">" || Ascii.eqb c quot || Ascii.eqb c apos.

Fixpoint inert (s : string) : bool :=
  match s with
  | EmptyString => true
  | String c s' =>
      if opens_markup c then false
      else if Ascii.eqb c "&"
           then existsb (fun e => String.prefix e s') entities && inert s'
           else inert s'
  end.

(** * Properties *)

(** ** Iteration and joining *)

Section Iteration.

Context {A B : Type}.
Implicit Types (f : A -> result B) (xs : list A) (ys : list B).

Lemma py_map_Ok_Forall2 f xs ys :
  py_map f xs = Ok ys <-> Forall2 (fun x y => f x = Ok y) xs ys.
Proof.
  revert ys. induction xs as [|x xs IH]; intros ys; simpl.
  - split.
    + intros [= <-]. constructor.
    + intros H. inversion H. reflexivity.
  - split.
    + destruct (f x) as [y|e] eqn:Hx; simpl; [|discriminate].
      destruct (py_map f xs) as [zs|e] eqn:Hxs; simpl; [|discriminate].
      intros [= <-]. constructor; [assumption|]. apply IH. reflexivity.
    + intros H. inversion H as [|? y ? zs Hx Hrest]; subst.
      rewrite Hx. simpl. apply IH in Hrest. rewrite Hrest. reflexivity.
Qed.

Lemma py_map_length f xs ys : py_map f xs = Ok ys -> length ys = length xs.
Proof.
  rewrite py_map_Ok_Forall2. intros H. symmetry. eapply Forall2_length, H.
Qed.

(** The first item on which [f] raises decides the outcome. *)
Lemma py_map_first_Raise f pre x post e :
  Forall (fun a => exists b, f a = Ok b) pre ->
  f x = Raise e ->
  py_map f (pre ++ x :: post)%list = Raise e.
Proof.
  intros Hpre Hx. induction Hpre as [|a pre [b Hb] _ IH]; simpl.
  - rewrite Hx. reflexivity.
  - rewrite Hb. simpl. rewrite IH. reflexivity.
Qed.

(** A list with a failing item splits at its first failing item. *)
Lemma first_Raise_split f xs x e :
  x ∈ xs -> f x = Raise e ->
  exists pre x' post e',
    xs = (pre ++ x' :: post)%list /\
    Forall (fun a => exists b, f a = Ok b) pre /\
    f x' = Raise e'.
Proof.
  intros Hin Hx. induction xs as [|a xs IH]; [inversion Hin|].
  destruct (f a) as [b|e'] eqn:Ha.
  - assert (x ∈ xs) as Hin'.
    { apply elem_of_cons in Hin as [->|?]; [congruence|assumption]. }
    destruct (IH Hin') as (pre & x' & post & e'' & -> & Hpre & Hx').
    exists (a :: pre), x', post, e''. repeat split; [|assumption].
    constructor; [eauto|assumption].
  - exists [], a, xs, e'. repeat split; [constructor|assumption].
Qed.

(** Where [f] succeeds on the whole list, it acts as a plain function. *)
Lemma py_map_Ok_fmap f xs ys (d : B) :
  py_map f xs = Ok ys ->
  ys = map (fun x => match f x with Ok y => y | Raise _ => d end) xs.
Proof.
  rewrite py_map_Ok_Forall2. induction 1 as [|x y xs ys Hx _ IH]; simpl.
  - reflexivity.
  - rewrite Hx, <- IH. reflexivity.
Qed.

Lemma py_map_Ok_elem f xs ys x :
  py_map f xs = Ok ys -> x ∈ xs -> exists y, f x = Ok y.
Proof.
  rewrite py_map_Ok_Forall2. intros H Hin.
  induction H as [|a y xs ys Ha _ IH]; [inversion Hin|].
  apply elem_of_cons in Hin as [->|Hin]; eauto.
Qed.

(** [f] succeeds on a list as soon as it succeeds on each of its items. *)
Lemma py_map_Ok_of_elem f xs (d : B) :
  (forall x, x ∈ xs -> exists y, f x = Ok y) ->
  py_map f xs = Ok (map (fun x => match f x with Ok y => y | Raise _ => d end) xs).
Proof.
  induction xs as [|a xs IH]; intros H; simpl; [reflexivity|].
  destruct (H a) as [y Hy]; [left|]. rewrite Hy. simpl.
  rewrite IH; [reflexivity|]. intros x Hx. apply H. right. exact Hx.
Qed.

Lemma Forall_returns_py_map f xs :
  Forall (fun a => exists b, f a = Ok b) xs -> exists ys, py_map f xs = Ok ys.
Proof.
  induction 1 as [|a xs [b Hb] _ [ys IH]]; simpl.
  - exists []. reflexivity.
  - exists (b :: ys). rewrite Hb. simpl. rewrite IH. reflexivity.
Qed.

(** Either [f] returns on every item, or there is a first item on which
    it raises. *)
Lemma py_map_cases f xs :
  (exists ys, py_map f xs = Ok ys) \/
  (exists pre x post e ys,
     xs = (pre ++ x :: post)%list /\ py_map f pre = Ok ys /\ f x = Raise e).
Proof.
  induction xs as [|a xs IH].
  - left. exists []. reflexivity.
  - destruct (f a) as [b|e] eqn:Ha.
    + destruct IH as [[ys Hys]|(pre & x & post & e & ys & -> & Hpre & Hx)].
      * left. exists (b :: ys). simpl. rewrite Ha. simpl. rewrite Hys. reflexivity.
      * right. exists (a :: pre), x, post, e, (b :: ys).
        repeat split; [|exact Hx]. simpl. rewrite Ha. simpl. rewrite Hpre. reflexivity.
    + right. exists [], a, xs, e, []. repeat split. exact Ha.
Qed.

Context {C : Type}.
Implicit Types (g : B -> C).

(** One step of the consumer on the two maps of [render]. *)
Lemma consume_cons f g x xs :
  consume (lazy_map (fun y => Ok (g y)) (lazy_map f (py_iter (x :: xs))))
  = match f x with
    | Ok y =>
        items ← consume (lazy_map (fun y => Ok (g y)) (lazy_map f (py_iter xs)));
        Ok (g y :: items)
    | Raise e => if stops_iteration e then Ok [] else Raise e
    end.
Proof. simpl. destruct (f x); reflexivity. Qed.

(** Where [f] returns on every item, the consumer collects them all. *)
Lemma consume_returns f g xs ys :
  py_map f xs = Ok ys ->
  consume (lazy_map (fun y => Ok (g y)) (lazy_map f (py_iter xs))) = Ok (map g ys).
Proof.
  rewrite py_map_Ok_Forall2. induction 1 as [|x y xs ys Hx _ IH].
  - reflexivity.
  - rewrite consume_cons, Hx, IH. reflexivity.
Qed.

(** The first item on which [f] raises decides what the consumer makes of
    the iterator: the items before it when the exception is a
    [StopIteration], that exception otherwise. *)
Lemma consume_first_Raise f g pre x post e ys :
  py_map f pre = Ok ys ->
  f x = Raise e ->
  consume (lazy_map (fun y => Ok (g y)) (lazy_map f (py_iter (pre ++ x :: post)%list)))
  = if stops_iteration e then Ok (map g ys) else Raise e.
Proof.
  rewrite py_map_Ok_Forall2. intros Hpre Hx.
  induction Hpre as [|a y pre ys Ha _ IH].
  - simpl app. rewrite consume_cons, Hx. reflexivity.
  - simpl app. rewrite consume_cons, Ha, IH.
    destruct (stops_iteration e); reflexivity.
Qed.

End Iteration.

(** ** Escaping *)

Lemma prefix_app_l (e s t : string) :
  String.prefix e s = true -> String.prefix e (s ++ t) = true.
Proof.
  revert s. induction e as [|c e IH]; intros s.
  { intros _. destruct (s ++ t); reflexivity. }
  destruct s as [|c' s]; simpl; [discriminate|].
  destruct (ascii_dec c c'); [apply IH|discriminate].
Qed.

Lemma entity_app_l (s t : string) :
  existsb (fun e => String.prefix e s) entities = true ->
  existsb (fun e => String.prefix e (s ++ t)) entities = true.
Proof.
  rewrite !existsb_exists. intros (e & Hin & He).
  exists e. split; [assumption|]. apply prefix_app_l, He.
Qed.

Lemma inert_app (s t : string) :
  inert s = true -> inert t = true -> inert (s ++ t) = true.
Proof.
  intros Hs Ht. induction s as [|c s IH]; simpl in *; [assumption|].
  destruct (opens_markup c); [discriminate|].
  destruct (Ascii.eqb c "&").
  - apply andb_true_iff in Hs as [He Hs].
    apply andb_true_iff. split; [apply entity_app_l, He|apply IH, Hs].
  - apply IH, Hs.
Qed.

Lemma inert_escape_char (c : ascii) : inert (escape_char c) = true.
Proof.
  unfold escape_char.
  destruct (Ascii.eqb c "&") eqn:Hamp; [reflexivity|].
  destruct (Ascii.eqb c "<") eqn:Hlt; [reflexivity|].
  destruct (Ascii.eqb c ">") eqn:Hgt; [reflexivity|].
  destruct (Ascii.eqb c quot) eqn:Hquot; [reflexivity|].
  destruct (Ascii.eqb c apos) eqn:Hapos; [reflexivity|].
  simpl. unfold opens_markup. rewrite Hamp, Hlt, Hgt, Hquot, Hapos. reflexivity.
Qed.

Lemma inert_escape_string (s : string) : inert (escape_string s) = true.
Proof.
  induction s as [|c s IH]; simpl; [reflexivity|].
  apply inert_app; [apply inert_escape_char|apply IH].
Qed.

Lemma inert_concat (sep : string) (items : list string) :
  inert sep = true -> Forall (fun s => inert s = true) items ->
  inert (String.concat sep items) = true.
Proof.
  intros Hsep. induction 1 as [|s items Hs Hitems IH]; [reflexivity|].
  simpl. destruct items as [|s' items]; [assumption|].
  apply inert_app; [assumption|]. apply inert_app; assumption.
Qed.

(** What [conditional_escape] returns is always marked safe. *)
Lemma conditional_escape_safe (t : text) : is_safe (conditional_escape t) = true.
Proof. unfold conditional_escape. destruct (is_safe t) eqn:H; [exact H|reflexivity]. Qed.

Lemma conditional_escape_plain (t : text) :
  is_safe t = false -> content (conditional_escape t) = escape_string (content t).
Proof. unfold conditional_escape. intros ->. reflexivity. Qed.

Lemma conditional_escape_marked (t : text) :
  is_safe t = true -> conditional_escape t = t.
Proof. unfold conditional_escape. intros ->. reflexivity. Qed.

(** ** Rendering *)

Section Rendering.

Context {Obj : Type}.
Variable force_text : Obj -> result text.

Import ManyToManyColumn.

Implicit Types (self : instance Obj) (value : Manager Obj).

Lemma exists_related value : exists_ value = true <-> related value <> [].
Proof. unfold exists_. destruct (related value); split; congruence. Qed.

(** Past the emptiness test, [render] is the join of what the two maps
    produce. *)
Lemma render_nonempty self value :
  exists_ value = true ->
  render force_text self value =
    (records ← self_filter self value;
     items ← consume (lazy_map (fun text => Ok (conditional_escape text))
                        (lazy_map (self_transform force_text self) (py_iter records)));
     Ok (mark_safe (join (conditional_escape (separator self)) items))).
Proof. unfold ManyToManyColumn.render. intros ->. reflexivity. Qed.

(** Where [transform] returns for every record that [filter] yields, the
    cell joins all of them. *)
Lemma render_returns self value records texts :
  exists_ value = true ->
  self_filter self value = Ok records ->
  py_map (self_transform force_text self) records = Ok texts ->
  render force_text self value
    = Ok (mark_safe (join (conditional_escape (separator self))
                          (map conditional_escape texts))).
Proof.
  intros Hex Hfilter Htexts. rewrite (render_nonempty _ _ Hex), Hfilter. simpl.
  rewrite (consume_returns _ conditional_escape _ _ Htexts). reflexivity.
Qed.

(** C2. When the emptiness test of the related manager reports no
    records, [render] returns the plain string ["-"]: its content is that
    one character, nothing was escaped, and it is not marked safe. The
    hooks are not called, so this holds whatever they would do. *)
Theorem render_empty_placeholder self value :
  exists_ value = false ->
  render force_text self value = Ok (Text "-" false).
Proof. unfold ManyToManyColumn.render. intros ->. reflexivity. Qed.

(** C1. For a related manager whose collection is not empty, [render]
    returns a text marked safe whose content is the escaped texts that
    [transform] gives for the records [filter] yields, joined by the
    escaped separator, in the order of [filter]. Escaped means passed
    through [conditional_escape]; [texts] are the results of [transform],
    record by record. *)
Theorem render_joins_escaped_items self value records texts :
  related value <> [] ->
  self_filter self value = Ok records ->
  Forall2 (fun r t => self_transform force_text self r = Ok t) records texts ->
  exists out,
    render force_text self value = Ok out /\
    is_safe out = true /\
    content out =
      String.concat (content (conditional_escape (separator self)))
                    (map (fun t => content (conditional_escape t)) texts).
Proof.
  intros Hne Hfilter Htexts.
  apply exists_related in Hne. apply py_map_Ok_Forall2 in Htexts.
  rewrite (render_returns _ _ _ _ Hne Hfilter Htexts).
  eexists. split; [reflexivity|]. split; [reflexivity|].
  simpl. rewrite map_map. reflexivity.
Qed.

(** C3, as amended. The separator and every text that [transform]
    returns pass through [conditional_escape] before the join. Each of
    them that is not already marked safe is HTML-escaped there and cannot
    open markup: what is joined for it has no [<], [>] or quote, and each
    [&] in it starts an entity. When none of them is marked safe, this
    holds of the whole cell. *)
Theorem render_escapes_unmarked_text self value records texts :
  related value <> [] ->
  self_filter self value = Ok records ->
  py_map (self_transform force_text self) records = Ok texts ->
  exists out,
    render force_text self value = Ok out /\
    content out =
      String.concat (content (conditional_escape (separator self)))
                    (map (fun t => content (conditional_escape t)) texts) /\
    (forall t, t = separator self \/ t ∈ texts ->
       is_safe t = false ->
       content (conditional_escape t) = escape_string (content t) /\
       inert (content (conditional_escape t)) = true) /\
    (is_safe (separator self) = false ->
     Forall (fun t => is_safe t = false) texts ->
     inert (content out) = true).
Proof.
  intros Hne Hfilter Htexts.
  apply exists_related in Hne.
  rewrite (render_returns _ _ _ _ Hne Hfilter Htexts).
  eexists. split; [reflexivity|]. simpl. rewrite map_map.
  split; [reflexivity|]. split.
  - intros t _ Ht. rewrite (conditional_escape_plain _ Ht).
    split; [reflexivity|apply inert_escape_string].
  - intros Hsep Hplain. apply inert_concat.
    + rewrite (conditional_escape_plain _ Hsep). apply inert_escape_string.
    + clear -Hplain. induction Hplain as [|t texts Ht _ IH]; constructor; [|exact IH].
      rewrite (conditional_escape_plain _ Ht). apply inert_escape_string.
Qed.

(** C7, as amended. When [transform] raises on a record that [filter]
    yields for a non-empty related manager, the first exception it
    raises, in the order of [filter], leaves [render] uncaught, provided
    it is not a [StopIteration]: [render] then returns no text, neither
    for the records before the failing one nor with that one skipped or
    replaced. *)
Theorem render_propagates_transform_exception self value records r e :
  related value <> [] ->
  self_filter self value = Ok records ->
  r ∈ records ->
  self_transform force_text self r = Raise e ->
  exists pre r' post e',
    records = (pre ++ r' :: post)%list /\
    Forall (fun x => exists t, self_transform force_text self x = Ok t) pre /\
    self_transform force_text self r' = Raise e' /\
    (stops_iteration e' = false -> render force_text self value = Raise e').
Proof.
  intros Hne Hfilter Hin Hr. apply exists_related in Hne.
  destruct (first_Raise_split _ _ _ _ Hin Hr)
    as (pre & r' & post & e' & Hsplit & Hpre & Hr').
  exists pre, r', post, e'. repeat split; try assumption.
  intros Hstop. destruct (Forall_returns_py_map _ _ Hpre) as [ys Hys].
  rewrite (render_nonempty _ _ Hne), Hfilter. simpl.
  rewrite Hsplit, (consume_first_Raise _ conditional_escape _ _ _ _ _ Hys Hr'), Hstop.
  reflexivity.
Qed.

(** C9. The placeholder is decided by the emptiness test alone: [render]
    returns the plain ["-"] exactly when the test reports no records.
    When the test reports records and [filter] yields none, [render]
    returns the empty string marked safe. *)
Theorem render_filter_yields_nothing self value :
  (render force_text self value = Ok (str "-") <-> exists_ value = false) /\
  (exists_ value = true ->
   self_filter self value = Ok [] ->
   render force_text self value = Ok (Text EmptyString true)).
Proof.
  split.
  - split; [|unfold ManyToManyColumn.render; intros ->; reflexivity].
    destruct (exists_ value) eqn:Hex; [|reflexivity].
    rewrite (render_nonempty _ _ Hex).
    destruct (self_filter self value) as [records|]; simpl; [|discriminate].
    destruct (consume _); simpl; discriminate.
  - intros Hex Hfilter. rewrite (render_nonempty _ _ Hex), Hfilter. reflexivity.
Qed.

(** C8. Two columns built from the same arguments except for the filter,
    rendering the same non-empty related manager, where the second filter
    yields a reordering or a selection of what the first one yields: both
    cells are joins, by the same escaped separator, of the same
    per-record text [item], which is the escaped result of [transform] on
    that record under either column. The second cell differs from the first
    only in which records are listed and in what order. *)
Theorem render_filter_replaced
    transform filter1 filter2 sep args kwargs value records1 records2 texts1 :
  related value <> [] ->
  self_filter (__init__ transform filter1 sep args kwargs) value = Ok records1 ->
  self_filter (__init__ transform filter2 sep args kwargs) value = Ok records2 ->
  records2 ⊆+ records1 ->
  py_map (self_transform force_text (__init__ transform filter1 sep args kwargs))
         records1 = Ok texts1 ->
  exists (item : Obj -> text) (esep : text),
    (forall r, r ∈ records1 ->
       exists t,
         self_transform force_text (__init__ transform filter1 sep args kwargs) r = Ok t /\
         self_transform force_text (__init__ transform filter2 sep args kwargs) r = Ok t /\
         item r = conditional_escape t) /\
    esep = conditional_escape (separator (__init__ transform filter1 sep args kwargs)) /\
    esep = conditional_escape (separator (__init__ transform filter2 sep args kwargs)) /\
    render force_text (__init__ transform filter1 sep args kwargs) value
      = Ok (mark_safe (join esep (map item records1))) /\
    render force_text (__init__ transform filter2 sep args kwargs) value
      = Ok (mark_safe (join esep (map item records2))) /\
    map item records2 ⊆+ map item records1.
Proof.
  intros Hne Hf1 Hf2 Hsub Htexts. apply exists_related in Hne.
  set (self1 := __init__ transform filter1 sep args kwargs) in *.
  set (self2 := __init__ transform filter2 sep args kwargs) in *.
  set (g := fun r => match self_transform force_text self1 r with
                     | Ok t => t
                     | Raise _ => str EmptyString
                     end).
  assert (forall r, r ∈ records1 -> exists t, self_transform force_text self1 r = Ok t)
    as Hok by (intros r; apply (py_map_Ok_elem _ _ _ _ Htexts)).
  exists (fun r => conditional_escape (g r)), (conditional_escape (separator self1)).
  split; [|split; [reflexivity|split; [reflexivity|split; [|split]]]].
  - intros r Hr. destruct (Hok r Hr) as [t Ht]. exists t.
    split; [exact Ht|]. split; [exact Ht|]. unfold g. rewrite Ht. reflexivity.
  - rewrite (render_returns _ _ _ _ Hne Hf1 Htexts).
    rewrite (py_map_Ok_fmap _ _ _ (str EmptyString) Htexts), map_map. reflexivity.
  - assert (py_map (self_transform force_text self2) records2 = Ok (map g records2))
      as Htexts2.
    { apply (py_map_Ok_of_elem _ _ (str EmptyString)).
      intros r Hr. apply Hok. eapply elem_of_submseteq; [exact Hr|exact Hsub]. }
    rewrite (render_returns _ _ _ _ Hne Hf2 Htexts2), map_map. reflexivity.
  - apply (fmap_submseteq (fun r => conditional_escape (g r))), Hsub.
Qed.

End Rendering.

(** ** Characters *)

Lemma continuation_ascii_of_N (x : N) :
  (x < 64)%N -> continuation (ascii_of_N (128 + x)) = Some x.
Proof.
  intros Hx. unfold continuation.
  rewrite N_ascii_embedding by lia.
  destruct (N.leb_spec 128 (128 + x)); [|lia].
  destruct (N.ltb_spec (128 + x) 192); [|lia].
  simpl. f_equal. lia.
Qed.

(** A text that starts with the character [cp] has [cp] for [s[0]] and
    what follows it for [s[1:]]. *)
Lemma decode_first_encode (cp : N) (rest : string) :
  is_char cp = true -> decode_first (encode cp ++ rest) = Some (cp, rest).
Proof.
  unfold is_char. intros Hcp.
  apply andb_true_iff in Hcp as [Hmax Hsur].
  apply N.ltb_lt in Hmax. apply negb_true_iff in Hsur.
  unfold encode.
  replace (cp / 262144)%N with (cp / 64 / 64 / 64)%N
    by (rewrite !N.Div0.div_div; reflexivity).
  replace (cp / 4096)%N with (cp / 64 / 64)%N
    by (rewrite !N.Div0.div_div; reflexivity).
  pose proof (N.div_mod cp 64 ltac:(discriminate)) as H0.
  pose proof (N.mod_lt cp 64 ltac:(discriminate)) as H0'.
  pose proof (N.div_mod (cp / 64) 64 ltac:(discriminate)) as H1.
  pose proof (N.mod_lt (cp / 64) 64 ltac:(discriminate)) as H1'.
  pose proof (N.div_mod (cp / 64 / 64) 64 ltac:(discriminate)) as H2.
  pose proof (N.mod_lt (cp / 64 / 64) 64 ltac:(discriminate)) as H2'.
  set (r0 := (cp mod 64)%N) in *. set (q1 := (cp / 64)%N) in *.
  set (r1 := (q1 mod 64)%N) in *. set (q2 := (q1 / 64)%N) in *.
  set (r2 := (q2 mod 64)%N) in *. set (q3 := (q2 / 64)%N) in *.
  destruct (N.ltb_spec cp 128) as [Ha|Ha].
  - change (decode_first (String (ascii_of_N cp) rest) = Some (cp, rest)).
    unfold decode_first. rewrite N_ascii_embedding by lia.
    destruct (N.ltb_spec cp 128); [reflexivity|lia].
  - destruct (N.ltb_spec cp 2048) as [Hb|Hb].
    + change (decode_first (String (ascii_of_N (192 + q1))
                (String (ascii_of_N (128 + r0)) rest)) = Some (cp, rest)).
      unfold decode_first. rewrite N_ascii_embedding by lia.
      destruct (N.ltb_spec (192 + q1) 128); [lia|].
      destruct (N.ltb_spec (192 + q1) 194); [lia|].
      destruct (N.ltb_spec (192 + q1) 224); [|lia].
      rewrite continuation_ascii_of_N by lia. f_equal. f_equal. lia.
    + destruct (N.ltb_spec cp 65536) as [Hc|Hc].
      * change (decode_first (String (ascii_of_N (224 + q2))
                  (String (ascii_of_N (128 + r1))
                     (String (ascii_of_N (128 + r0)) rest))) = Some (cp, rest)).
        unfold decode_first. rewrite N_ascii_embedding by lia.
        destruct (N.ltb_spec (224 + q2) 128); [lia|].
        destruct (N.ltb_spec (224 + q2) 194); [lia|].
        destruct (N.ltb_spec (224 + q2) 224); [lia|].
        destruct (N.ltb_spec (224 + q2) 240); [|lia].
        rewrite !continuation_ascii_of_N by lia.
        replace ((224 + q2 - 224) * 4096 + r1 * 64 + r0)%N with cp by lia.
        destruct (N.leb_spec 2048 cp); [|lia]. rewrite Hsur. reflexivity.
      * change (decode_first (String (ascii_of_N (240 + q3))
                  (String (ascii_of_N (128 + r2))
                     (String (ascii_of_N (128 + r1))
                        (String (ascii_of_N (128 + r0)) rest))))
                = Some (cp, rest)).
        unfold decode_first. rewrite N_ascii_embedding by lia.
        destruct (N.ltb_spec (240 + q3) 128); [lia|].
        destruct (N.ltb_spec (240 + q3) 194); [lia|].
        destruct (N.ltb_spec (240 + q3) 224); [lia|].
        destruct (N.ltb_spec (240 + q3) 240); [lia|].
        destruct (N.ltb_spec (240 + q3) 245); [|lia].
        rewrite !continuation_ascii_of_N by lia.
        replace ((240 + q3 - 240) * 262144 + r2 * 4096 + r1 * 64 + r0)%N
          with cp by lia.
        destruct (N.leb_spec 65536 cp); [|lia].
        destruct (N.ltb_spec cp 1114112); [|lia]. reflexivity.
Qed.

(** [upper] on the ASCII characters: the small letters give the capital
    ones and nothing else changes. *)
Lemma upper_ascii (cp : N) :
  (cp < 128)%N ->
  upper cp = [if (97 <=? cp)%N && (cp <=? 122)%N then (cp - 32)%N else cp].
Proof.
  intros H.
  assert (Forall (fun cp => upper cp
            = [if (97 <=? cp)%N && (cp <=? 122)%N then (cp - 32)%N else cp])
            (map N.of_nat (seq 0 128))) as Hall.
  { vm_compute. repeat constructor. }
  rewrite Forall_forall in Hall. apply Hall.
  apply list_elem_of_fmap. exists (N.to_nat cp). split; [lia|].
  apply list_elem_of_In, in_seq. lia.
Qed.

(** ** Construction and detection *)

Section Construction.

Context {Obj : Type}.
Variable force_text : Obj -> result text.

Import ManyToManyColumn.

Implicit Types (transform : option (Obj -> result text))
  (filter : option (Manager Obj -> result (list Obj)))
  (separator : option text) (args : list pyval) (kwargs : gmap string pyval).

Lemma lookup_setdefault key value kwargs :
  setdefault key value kwargs !! key = Some (default value (kwargs !! key)).
Proof.
  unfold setdefault. destruct (kwargs !! key) as [v|] eqn:H; simpl.
  - exact H.
  - apply lookup_insert_eq.
Qed.

Lemma lookup_setdefault_ne key key' value kwargs :
  key <> key' -> setdefault key value kwargs !! key' = kwargs !! key'.
Proof.
  intros Hne. unfold setdefault. destruct (kwargs !! key); [reflexivity|].
  apply lookup_insert_ne, Hne.
Qed.

(** C4. An instance built without the [orderable] option has [orderable]
    false; built with a value for it, true included, it keeps that
    value. *)
Theorem init_orderable transform filter separator args kwargs :
  (kwargs !! "orderable" = None ->
   Column.orderable (base (__init__ transform filter separator args kwargs))
     = Some (PyBool false)) /\
  (forall v, kwargs !! "orderable" = Some v ->
   Column.orderable (base (__init__ transform filter separator args kwargs))
     = Some v).
Proof.
  unfold Column.orderable. simpl. rewrite lookup_setdefault.
  split; [intros ->|intros v ->]; reflexivity.
Qed.

(** C5. [from_field] returns an instance for a descriptor of a
    many-to-many field and nothing for any other descriptor. Where the
    label of the field is the character [cp] followed by [rest], the
    verbose name of the instance is the upper case of [cp], as
    [str.upper()] gives it, followed by [rest] unchanged. *)
Theorem from_field_many_to_many (field : Field) :
  (isinstance_ManyToManyField field = true ->
   exists col : instance Obj,
     from_field field = Some col /\
     forall cp rest,
       is_char cp = true ->
       content (verbose_name field) = encode cp ++ rest ->
       Column.verbose_name (base col)
         = Some (PyText (str (encode_all (upper cp) ++ rest)))) /\
  (isinstance_ManyToManyField field = false ->
   @from_field Obj field = None).
Proof.
  unfold from_field. split; intros ->; [|reflexivity].
  eexists. split; [reflexivity|]. intros cp rest Hcp Hlabel.
  unfold Column.verbose_name. simpl.
  rewrite lookup_setdefault_ne by discriminate. rewrite lookup_singleton_eq.
  unfold ucfirst. rewrite Hlabel, (decode_first_encode _ _ Hcp). reflexivity.
Qed.

(** C10. The instance that [from_field] returns for a many-to-many
    descriptor was given the verbose name and nothing else: its options
    are the verbose name and the defaulted [orderable], which is false,
    its separator is [", "], and its transform and filter are the methods
    of the class, [force_text] and [all]. *)
Theorem from_field_defaults (field : Field) :
  isinstance_ManyToManyField field = true ->
  exists col : instance Obj,
    from_field field = Some col /\
    Column.options (base col)
      = <["orderable" := PyBool false]>
          {["verbose_name" := PyText (ucfirst (verbose_name field))]} /\
    Column.positional (base col) = [] /\
    Column.orderable (base col) = Some (PyBool false) /\
    separator col = str ", " /\
    (forall obj, self_transform force_text col obj = force_text obj) /\
    (forall qs, self_filter col qs = Ok (all qs)).
Proof.
  unfold from_field. intros ->. eexists. split; [reflexivity|].
  repeat split.
Qed.

End Construction.

(** ** Further properties of the column *)

Lemma string_app_assoc (a b c : string) : (a ++ b) ++ c = a ++ (b ++ c).
Proof.
  induction a as [|x a IH]; [reflexivity|].
  change (String x ((a ++ b) ++ c) = String x (a ++ (b ++ c))).
  f_equal. exact IH.
Qed.

(** Joining two non-empty runs of items puts one separator between them. *)
Lemma concat_app (sep : string) (xs ys : list string) :
  xs <> [] -> ys <> [] ->
  String.concat sep (xs ++ ys)%list
    = String.concat sep xs ++ sep ++ String.concat sep ys.
Proof.
  intros Hxs Hys. induction xs as [|x xs IH]; [congruence|].
  destruct xs as [|x' xs].
  - destruct ys as [|y ys]; [congruence|]. reflexivity.
  - change (String.concat sep ((x :: x' :: xs) ++ ys)%list)
      with (x ++ sep ++ String.concat sep ((x' :: xs) ++ ys)%list).
    rewrite IH by discriminate.
    change (String.concat sep (x :: x' :: xs))
      with (x ++ sep ++ String.concat sep (x' :: xs)).
    rewrite !string_app_assoc. reflexivity.
Qed.

Lemma py_map_app {A B} (f : A -> result B) xs xs' ys ys' :
  py_map f xs = Ok ys -> py_map f xs' = Ok ys' ->
  py_map f (xs ++ xs')%list = Ok (ys ++ ys')%list.
Proof.
  rewrite !py_map_Ok_Forall2. apply Forall2_app.
Qed.

Section Further.

Context {Obj : Type}.
Variable force_text : Obj -> result text.

Import ManyToManyColumn.

Implicit Types (self : instance Obj) (value : Manager Obj).

(** What [render] returns on a manager that reports records, read back
    from its outcome. *)
Lemma render_Ok_inv self value out :
  exists_ value = true ->
  render force_text self value = Ok out ->
  exists records items,
    self_filter self value = Ok records /\
    consume (lazy_map (fun text => Ok (conditional_escape text))
               (lazy_map (self_transform force_text self) (py_iter records)))
      = Ok items /\
    out = mark_safe (join (conditional_escape (separator self)) items).
Proof.
  intros Hex. rewrite (render_nonempty _ _ _ Hex).
  destruct (self_filter self value) as [records|] eqn:Hf; simpl; [|discriminate].
  destruct (consume _) as [items|] eqn:Ht; simpl; [|discriminate].
  intros [= <-]. exists records, items. repeat split. exact Ht.
Qed.

(** X1. A cell that [render] returned is not changed by one more pass
    through [conditional_escape], as the template layer applies to what
    it prints: the pass keeps the characters and only leaves the text
    marked safe. This holds of the placeholder too. *)
Theorem render_escaped_once self value out :
  render force_text self value = Ok out ->
  conditional_escape out = mark_safe out.
Proof.
  destruct (exists_ value) eqn:Hex.
  - intros H. destruct (render_Ok_inv _ _ _ Hex H) as (? & ? & _ & _ & ->).
    reflexivity.
  - unfold ManyToManyColumn.render. rewrite Hex. intros [= <-]. reflexivity.
Qed.

(** X2. [render] returns a text, rather than raising, exactly in these
    cases: the emptiness test reports no records; or [filter] returns
    and [transform] returns for each record [filter] yields; or [filter]
    returns and the first exception that [transform] raises on those
    records is a [StopIteration], which ends the cell there. Records that
    [filter] leaves out are never transformed. *)
Theorem render_returns_iff self value :
  (exists out, render force_text self value = Ok out) <->
  exists_ value = false \/
  exists records,
    self_filter self value = Ok records /\
    (Forall (fun r => exists t, self_transform force_text self r = Ok t) records \/
     exists pre r post e,
       records = (pre ++ r :: post)%list /\
       Forall (fun r' => exists t, self_transform force_text self r' = Ok t) pre /\
       self_transform force_text self r = Raise e /\
       stops_iteration e = true).
Proof.
  split.
  - intros [out H]. destruct (exists_ value) eqn:Hex; [right|left; reflexivity].
    rewrite (render_nonempty _ _ _ Hex) in H.
    destruct (self_filter self value) as [records|] eqn:Hf; simpl in H; [|discriminate].
    exists records. split; [reflexivity|].
    destruct (py_map_cases (self_transform force_text self) records)
      as [[ys Hys]|(pre & r & post & e & ys & -> & Hpre & Hr)].
    + left. apply Forall_forall. intros r Hr. eapply py_map_Ok_elem; eassumption.
    + right. exists pre, r, post, e. split; [reflexivity|].
      split; [apply Forall_forall; intros r' Hr'; eapply py_map_Ok_elem; eassumption|].
      split; [exact Hr|].
      rewrite (consume_first_Raise _ conditional_escape _ _ _ _ _ Hpre Hr) in H.
      destruct (stops_iteration e); [reflexivity|discriminate].
  - intros [Hex|(records & Hf & Hcases)].
    { exists (str "-"). unfold ManyToManyColumn.render. rewrite Hex. reflexivity. }
    destruct (exists_ value) eqn:Hex.
    2:{ exists (str "-"). unfold ManyToManyColumn.render. rewrite Hex. reflexivity. }
    destruct Hcases as [Hall|(pre & r & post & e & -> & Hpre & Hr & Hstop)].
    + destruct (Forall_returns_py_map _ _ Hall) as [ys Hys].
      rewrite (render_returns _ _ _ _ _ Hex Hf Hys). eexists. reflexivity.
    + destruct (Forall_returns_py_map _ _ Hpre) as [ys Hys].
      rewrite (render_nonempty _ _ _ Hex), Hf. simpl.
      rewrite (consume_first_Raise _ conditional_escape _ _ _ _ _ Hys Hr), Hstop.
      eexists. reflexivity.
Qed.

(** X3. When [filter] raises on a manager that reports records, [render]
    raises the same exception, whatever [transform] is; on a manager
    that reports none, [filter] is not called and the placeholder is
    returned. *)
Theorem render_propagates_filter_exception self value e :
  self_filter self value = Raise e ->
  (exists_ value = true -> render force_text self value = Raise e) /\
  (exists_ value = false -> render force_text self value = Ok (str "-")).
Proof.
  intros Hf. split; intros Hex.
  - rewrite (render_nonempty _ _ _ Hex), Hf. reflexivity.
  - unfold ManyToManyColumn.render. rewrite Hex. reflexivity.
Qed.

(** X5. Two columns built from the same arguments except for the
    transform list the same records, in the same order and number, with
    the same escaped separator; only the text of each item differs. *)
Theorem render_transform_replaced
    transform1 transform2 filter sep args kwargs value records texts1 texts2 :
  related value <> [] ->
  self_filter (__init__ transform1 filter sep args kwargs) value = Ok records ->
  py_map (self_transform force_text (__init__ transform1 filter sep args kwargs))
         records = Ok texts1 ->
  py_map (self_transform force_text (__init__ transform2 filter sep args kwargs))
         records = Ok texts2 ->
  self_filter (__init__ transform2 filter sep args kwargs) value = Ok records /\
  length texts1 = length records /\
  length texts2 = length records /\
  render force_text (__init__ transform1 filter sep args kwargs) value
    = Ok (mark_safe (join (conditional_escape (default (str ", ") sep))
                          (map conditional_escape texts1))) /\
  render force_text (__init__ transform2 filter sep args kwargs) value
    = Ok (mark_safe (join (conditional_escape (default (str ", ") sep))
                          (map conditional_escape texts2))).
Proof.
  intros Hne Hf Ht1 Ht2. apply exists_related in Hne.
  assert (self_filter (__init__ transform2 filter sep args kwargs) value = Ok records)
    as Hf2 by exact Hf.
  split; [exact Hf2|].
  split; [eapply py_map_length, Ht1|].
  split; [eapply py_map_length, Ht2|].
  split.
  - apply (render_returns _ _ _ _ _ Hne Hf Ht1).
  - apply (render_returns _ _ _ _ _ Hne Hf2 Ht2).
Qed.

(** X6. A column that [from_field] returns lists every record of a
    non-empty manager, in the order of the manager: the cell is the
    escaped [force_text] of each record, joined by [", "], marked safe. *)
Theorem from_field_render field col value texts :
  from_field field = Some col ->
  related value <> [] ->
  Forall2 (fun r t => force_text r = Ok t) (related value) texts ->
  render force_text col value
    = Ok (Text (String.concat ", " (map (fun t => content (conditional_escape t)) texts))
               true).
Proof.
  unfold from_field. destruct (isinstance_ManyToManyField field); [|discriminate].
  intros [= <-] Hne Htexts.
  apply exists_related in Hne. apply py_map_Ok_Forall2 in Htexts.
  erewrite render_returns; [|exact Hne|reflexivity|exact Htexts].
  unfold join, mark_safe. simpl. rewrite map_map. reflexivity.
Qed.

(** X7. On a column built without a filter, the filter yields the
    records of the manager and never raises, so the placeholder is
    returned exactly when there is no record to list. *)
Theorem default_filter_placeholder transform sep args kwargs value :
  self_filter (__init__ transform None sep args kwargs) value = Ok (related value) /\
  (render force_text (__init__ transform None sep args kwargs) value = Ok (str "-")
   <-> self_filter (__init__ transform None sep args kwargs) value = Ok []).
Proof.
  split; [reflexivity|].
  change (self_filter (__init__ transform None sep args kwargs) value)
    with (Ok (A := list Obj) (related value)).
  split.
  - destruct (exists_ value) eqn:Hex.
    + intros H. destruct (render_Ok_inv _ _ _ Hex H) as (? & ? & _ & _ & Hout).
      discriminate Hout.
    + intros _. unfold exists_ in Hex. destruct (related value); [reflexivity|discriminate].
  - intros [= Hrel]. unfold ManyToManyColumn.render, exists_. rewrite Hrel. reflexivity.
Qed.

(** X8. When [filter] yields a single record, the separator plays no
    part: two columns that differ only in the separator render the same
    outcome, be it the cell, the placeholder or an exception. *)
Theorem render_single_ignores_separator
    transform filter sep1 sep2 args kwargs value r :
  self_filter (__init__ transform filter sep1 args kwargs) value = Ok [r] ->
  render force_text (__init__ transform filter sep1 args kwargs) value
    = render force_text (__init__ transform filter sep2 args kwargs) value.
Proof.
  intros Hf.
  assert (self_filter (__init__ transform filter sep2 args kwargs) value = Ok [r])
    as Hf2 by exact Hf.
  unfold ManyToManyColumn.render. destruct (exists_ value); simpl; [|reflexivity].
  rewrite Hf, Hf2. simpl.
  change (self_transform force_text (__init__ transform filter sep2 args kwargs))
    with (self_transform force_text (__init__ transform filter sep1 args kwargs)).
  destruct (self_transform force_text _ r) as [t|e]; simpl; [reflexivity|].
  destruct (stops_iteration e); reflexivity.
Qed.

(** X9. Rendering follows the concatenation of what [filter] yields: for
    three columns that differ only in the filter, where the third yields
    the records of the first followed by those of the second, both
    non-empty, and [transform] returns for each of these records, the
    third cell is the first cell, the escaped separator and the second
    cell, in that order. *)
Theorem render_append
    transform filter1 filter2 filter12 sep args kwargs value
    records1 records2 out1 out2 :
  related value <> [] ->
  records1 <> [] ->
  records2 <> [] ->
  self_filter (__init__ transform filter1 sep args kwargs) value = Ok records1 ->
  self_filter (__init__ transform filter2 sep args kwargs) value = Ok records2 ->
  self_filter (__init__ transform filter12 sep args kwargs) value
    = Ok (records1 ++ records2)%list ->
  Forall (fun r => exists t,
            self_transform force_text (__init__ transform filter12 sep args kwargs) r
              = Ok t)
         (records1 ++ records2)%list ->
  render force_text (__init__ transform filter1 sep args kwargs) value = Ok out1 ->
  render force_text (__init__ transform filter2 sep args kwargs) value = Ok out2 ->
  render force_text (__init__ transform filter12 sep args kwargs) value
    = Ok (Text (content out1
                ++ content (conditional_escape (default (str ", ") sep))
                ++ content out2) true).
Proof.
  intros Hne Hne1 Hne2 Hf1 Hf2 Hf12 Hall Hr1 Hr2. apply exists_related in Hne.
  apply Forall_app in Hall as [Hall1 Hall2].
  destruct (Forall_returns_py_map _ _ Hall1) as [ts1 Ht1].
  destruct (Forall_returns_py_map _ _ Hall2) as [ts2 Ht2].
  rewrite (render_returns _ _ _ _ _ Hne Hf1 Ht1) in Hr1. injection Hr1 as <-.
  rewrite (render_returns _ _ _ _ _ Hne Hf2 Ht2) in Hr2. injection Hr2 as <-.
  rewrite (render_returns _ _ _ _ _ Hne Hf12 (py_map_app _ _ _ _ _ Ht1 Ht2)).
  unfold join, mark_safe, str. simpl. f_equal. f_equal.
  rewrite !map_app. apply concat_app.
  - apply py_map_length in Ht1. destruct ts1; [|discriminate].
    destruct records1; [congruence|discriminate].
  - apply py_map_length in Ht2. destruct ts2; [|discriminate].
    destruct records2; [congruence|discriminate].
Qed.

End Further.

(** X4. The constructor passes the base column what it was given: the
    positional arguments as they are, and every option as the caller
    wrote it. The one option it can add is [orderable]; it removes or
    changes none. *)
Theorem init_forwards_configuration {Obj : Type}
    (transform : option (Obj -> result text))
    (filter : option (Manager Obj -> result (list Obj)))
    (separator : option text) (args : list pyval) (kwargs : gmap string pyval) :
  Column.positional
    (ManyToManyColumn.base (ManyToManyColumn.__init__ transform filter separator args kwargs))
    = args /\
  kwargs ⊆ Column.options
    (ManyToManyColumn.base (ManyToManyColumn.__init__ transform filter separator args kwargs)) /\
  dom (Column.options
    (ManyToManyColumn.base (ManyToManyColumn.__init__ transform filter separator args kwargs)))
    = {["orderable"]} ∪ dom kwargs.
Proof.
  split; [reflexivity|]. simpl. unfold setdefault.
  destruct (kwargs !! "orderable") as [v|] eqn:Hk.
  - split; [reflexivity|].
    symmetry. apply subseteq_union_1_L, singleton_subseteq_l, elem_of_dom. eauto.
  - split; [apply insert_subseteq, Hk|apply dom_insert_L].
Qed.

(** ** django.utils.encoding

    What reaches [force_text] from a relation: a model instance, whose
    string conversion [str(obj)] returns a text or raises; a lazy text
    (a [Promise], as [ugettext_lazy] gives), whose string conversion
    resolves it; and a text. *)

Inductive pyobj :=
| ModelInstance (model : string) (pk : Z) (to_str : result text)
| LazyText (resolve : result text)
| TextObj (t : text).

(** [str(s)] *)
Definition py_str (s : pyobj) : result text :=
  match s with
  | ModelInstance _ _ to_str => to_str
  | LazyText resolve => resolve
  | TextObj t => Ok t
  end.

(** What [force_text] raises for an exception of [str(s)]: a
    [UnicodeDecodeError] becomes a [DjangoUnicodeDecodeError] with the
    same arguments, anything else is left as it is. *)
Definition reraise (e : exn) : exn :=
  match e with
  | Exception cls msg =>
      if String.eqb cls "UnicodeDecodeError"
      then Exception "DjangoUnicodeDecodeError" msg
      else e
  end.

(** [force_text(s)], a function of Django, written the way Django has it:
    a [str], [SafeText] included, is returned as it is; anything else is
    converted with [str(s)]. *)
Definition force_text (s : pyobj) : result text :=
  match s with
  | TextObj t => Ok t
  | _ =>
      match py_str s with
      | Ok t => Ok t
      | Raise e => Raise (reraise e)
      end
  end.

(** C6. On an instance built without a transform, [self.transform] is
    the method of the class, and on every record it returns what
    [force_text] returns: for a model instance the text of its string
    conversion, or the exception that conversion raises; for a lazy text
    the text it resolves to; for a text that text, marked safe or not as
    it was. The outcome depends on the record alone: it is the same on
    every instance built without a transform, whatever the other
    arguments of the constructor, and the call changes nothing. *)
Theorem default_transform_force_text
    (filter : option (Manager pyobj -> result (list pyobj)))
    (separator : option text) (args : list pyval) (kwargs : gmap string pyval) :
  (forall obj,
     ManyToManyColumn.self_transform force_text
       (ManyToManyColumn.__init__ None filter separator args kwargs) obj
     = force_text obj) /\
  (forall model pk t,
     ManyToManyColumn.self_transform force_text
       (ManyToManyColumn.__init__ None filter separator args kwargs)
       (ModelInstance model pk (Ok t))
     = Ok t) /\
  (forall model pk e,
     ManyToManyColumn.self_transform force_text
       (ManyToManyColumn.__init__ None filter separator args kwargs)
       (ModelInstance model pk (Raise e))
     = Raise (reraise e)) /\
  (forall t,
     ManyToManyColumn.self_transform force_text
       (ManyToManyColumn.__init__ None filter separator args kwargs)
       (LazyText (Ok t))
     = Ok t) /\
  (forall t,
     ManyToManyColumn.self_transform force_text
       (ManyToManyColumn.__init__ None filter separator args kwargs)
       (TextObj t)
     = Ok t) /\
  (forall filter' separator' args' kwargs' obj,
     ManyToManyColumn.self_transform force_text
       (ManyToManyColumn.__init__ None filter' separator' args' kwargs') obj
     = ManyToManyColumn.self_transform force_text
         (ManyToManyColumn.__init__ None filter separator args kwargs) obj).
Proof. repeat split. Qed.

(** * A table of friends

    A model with a many-to-many relation to itself. One record has a
    string conversion that raises. *)

Inductive Person :=
| person (name : string)
| unprintable.

Definition person_text (p : Person) : result text :=
  match p with
  | person name => Ok (str name)
  | unprintable => Raise (Exception "ValueError" "no text for this record")
  end.

Definition friends : Manager Person :=
  {| related := [person "Ann"; person "<Bob>"; person "Cy & Di"] |}.

Definition nobody : Manager Person := {| related := [] |}.

Definition guests : Manager Person :=
  {| related := [person "Ann"; unprintable; person "Cy"] |}.

(** [ManyToManyColumn()] *)
Definition plain_column : ManyToManyColumn.instance Person :=
  ManyToManyColumn.__init__ None None None [] ∅.

(** [ManyToManyColumn(transform=lambda p: mark_safe('<b>x</b>'))] *)
Definition bold_column : ManyToManyColumn.instance Person :=
  ManyToManyColumn.__init__
    (Some (fun _ => Ok (mark_safe (str "<b>x</b>")))) None None [] ∅.

(** [ManyToManyColumn(separator=mark_safe('<br>'))] *)
Definition br_column : ManyToManyColumn.instance Person :=
  ManyToManyColumn.__init__ None None (Some (mark_safe (str "<br>"))) [] ∅.

(** [ManyToManyColumn(filter=lambda qs: qs.none())] *)
Definition none_filter (qs : Manager Person) : result (list Person) := Ok [].

(** [ManyToManyColumn(filter=lambda qs: reversed(qs.all())[:2])] *)
Definition last_two (qs : Manager Person) : result (list Person) :=
  Ok (take 2 (rev (all qs))).

Definition friends_field : Field :=
  {| field_class := ManyToManyField; verbose_name := str "friends" |}.

Definition name_field : Field :=
  {| field_class := CharField; verbose_name := str "name" |}.

Lemma render_empty_placeholder_witness :
  exists_ nobody = false /\
  ManyToManyColumn.render person_text bold_column nobody = Ok (Text "-" false).
Proof.
  split; [reflexivity|].
  apply (render_empty_placeholder person_text bold_column nobody). reflexivity.
Defined.

Lemma render_joins_escaped_items_witness :
  related friends <> [] /\
  exists out,
    ManyToManyColumn.render person_text plain_column friends = Ok out /\
    is_safe out = true /\
    content out = "Ann, &lt;Bob&gt;, Cy &amp; Di".
Proof.
  split; [discriminate|].
  apply (render_joins_escaped_items person_text plain_column friends
           (related friends) [str "Ann"; str "<Bob>"; str "Cy & Di"]).
  - discriminate.
  - reflexivity.
  - repeat constructor.
Defined.

(** C3 as stated fails: a text that [transform] returns marked safe, or a
    separator marked safe, reaches the cell as it is, markup included. *)
Lemma render_keeps_marked_markup :
  ManyToManyColumn.render person_text bold_column friends
    = Ok (Text "<b>x</b>, <b>x</b>, <b>x</b>" true) /\
  inert "<b>x</b>, <b>x</b>, <b>x</b>" = false /\
  ManyToManyColumn.render person_text br_column friends
    = Ok (Text "Ann<br>&lt;Bob&gt;<br>Cy &amp; Di" true) /\
  inert "Ann<br>&lt;Bob&gt;<br>Cy &amp; Di" = false.
Proof. repeat split. Qed.

Lemma render_escapes_unmarked_text_witness :
  exists out,
    ManyToManyColumn.render person_text
      (ManyToManyColumn.__init__ None None (Some (str " <&> ")) [] ∅) friends
      = Ok out /\
    content out = "Ann &lt;&amp;&gt; &lt;Bob&gt; &lt;&amp;&gt; Cy &amp; Di" /\
    (forall t, t = str " <&> " \/ t ∈ [str "Ann"; str "<Bob>"; str "Cy & Di"] ->
       is_safe t = false ->
       content (conditional_escape t) = escape_string (content t) /\
       inert (content (conditional_escape t)) = true) /\
    (is_safe (str " <&> ") = false ->
     Forall (fun t => is_safe t = false) [str "Ann"; str "<Bob>"; str "Cy & Di"] ->
     inert (content out) = true).
Proof.
  apply (render_escapes_unmarked_text person_text
           (ManyToManyColumn.__init__ None None (Some (str " <&> ")) [] ∅) friends
           (related friends) [str "Ann"; str "<Bob>"; str "Cy & Di"]).
  - discriminate.
  - reflexivity.
  - reflexivity.
Defined.

(** [ManyToManyColumn(transform=lambda p: next(names[p]))], which ends
    on [StopIteration] for the record without a name. *)
Definition name_or_stop (p : Person) : result text :=
  match p with
  | person name => Ok (str name)
  | unprintable => Raise (Exception "StopIteration" EmptyString)
  end.

(** C7 as stated fails: [transform] raises on the second of three records
    and [render] returns the cell of the first one. *)
Lemma render_ends_on_StopIteration :
  related guests <> [] /\
  unprintable ∈ related guests /\
  ManyToManyColumn.self_transform person_text
    (ManyToManyColumn.__init__ (Some name_or_stop) None None [] ∅) unprintable
    = Raise (Exception "StopIteration" EmptyString) /\
  ManyToManyColumn.render person_text
    (ManyToManyColumn.__init__ (Some name_or_stop) None None [] ∅) guests
    = Ok (Text "Ann" true).
Proof.
  split; [discriminate|]. split; [right; left|]. split; reflexivity.
Qed.

Lemma render_propagates_transform_exception_witness :
  exists pre r' post e',
    related guests = (pre ++ r' :: post)%list /\
    Forall (fun x => exists t,
              ManyToManyColumn.self_transform person_text plain_column x = Ok t) pre /\
    ManyToManyColumn.self_transform person_text plain_column r' = Raise e' /\
    (stops_iteration e' = false ->
     ManyToManyColumn.render person_text plain_column guests = Raise e').
Proof.
  apply (render_propagates_transform_exception person_text plain_column guests
           (related guests) unprintable
           (Exception "ValueError" "no text for this record")).
  - discriminate.
  - reflexivity.
  - right. left.
  - reflexivity.
Defined.

Lemma render_filter_yields_nothing_witness :
  exists_ friends = true /\
  ManyToManyColumn.render person_text
    (ManyToManyColumn.__init__ None (Some none_filter) None [] ∅) friends
    = Ok (Text EmptyString true).
Proof.
  split; [reflexivity|].
  apply (proj2 (render_filter_yields_nothing person_text
                  (ManyToManyColumn.__init__ None (Some none_filter) None [] ∅)
                  friends));
    reflexivity.
Defined.

Lemma render_filter_replaced_witness :
  exists (item : Person -> text) (esep : text),
    (forall r, r ∈ related friends ->
       exists t,
         ManyToManyColumn.self_transform person_text
           (ManyToManyColumn.__init__ None None None [] ∅) r = Ok t /\
         ManyToManyColumn.self_transform person_text
           (ManyToManyColumn.__init__ None (Some last_two) None [] ∅) r = Ok t /\
         item r = conditional_escape t) /\
    esep = conditional_escape (str ", ") /\
    esep = conditional_escape (str ", ") /\
    ManyToManyColumn.render person_text
      (ManyToManyColumn.__init__ None None None [] ∅) friends
      = Ok (mark_safe (join esep (map item (related friends)))) /\
    ManyToManyColumn.render person_text
      (ManyToManyColumn.__init__ None (Some last_two) None [] ∅) friends
      = Ok (mark_safe (join esep (map item [person "Cy & Di"; person "<Bob>"]))) /\
    map item [person "Cy & Di"; person "<Bob>"] ⊆+ map item (related friends).
Proof.
  apply (render_filter_replaced person_text None None (Some last_two) None [] ∅
           friends (related friends) [person "Cy & Di"; person "<Bob>"]
           [str "Ann"; str "<Bob>"; str "Cy & Di"]).
  - discriminate.
  - reflexivity.
  - reflexivity.
  - apply submseteq_cons, submseteq_swap.
  - reflexivity.
Defined.

Lemma init_orderable_witness :
  Column.orderable (ManyToManyColumn.base plain_column) = Some (PyBool false) /\
  Column.orderable
    (ManyToManyColumn.base
       (@ManyToManyColumn.__init__ Person None None None []
          {["orderable" := PyBool true]}))
    = Some (PyBool true).
Proof.
  split.
  - apply (proj1 (init_orderable (Obj := Person) None None None [] ∅)).
    reflexivity.
  - apply (proj2 (init_orderable (Obj := Person) None None None []
                    {["orderable" := PyBool true]})).
    reflexivity.
Defined.

Definition ecole_field : Field :=
  {| field_class := Subclass "TaggedManyToManyField" ManyToManyField;
     verbose_name := str "école" |}.

Lemma from_field_many_to_many_witness :
  (exists col : ManyToManyColumn.instance Person,
     ManyToManyColumn.from_field ecole_field = Some col /\
     Column.verbose_name (ManyToManyColumn.base col) = Some (PyText (str "École"))) /\
  @ManyToManyColumn.from_field Person name_field = None.
Proof.
  split.
  - destruct (proj1 (from_field_many_to_many (Obj := Person) ecole_field) eq_refl)
      as (col & Hcol & Hname).
    exists col. split; [exact Hcol|].
    apply (Hname 233%N "cole"); reflexivity.
  - apply (proj2 (from_field_many_to_many (Obj := Person) name_field)).
    reflexivity.
Defined.

Lemma from_field_defaults_witness :
  exists col : ManyToManyColumn.instance Person,
    ManyToManyColumn.from_field friends_field = Some col /\
    Column.options (ManyToManyColumn.base col)
      = <["orderable" := PyBool false]> {["verbose_name" := PyText (str "Friends")]} /\
    Column.positional (ManyToManyColumn.base col) = [] /\
    Column.orderable (ManyToManyColumn.base col) = Some (PyBool false) /\
    ManyToManyColumn.separator col = str ", " /\
    (forall obj, ManyToManyColumn.self_transform person_text col obj = person_text obj) /\
    (forall qs, ManyToManyColumn.self_filter col qs = Ok (all qs)).
Proof.
  apply (from_field_defaults person_text friends_field). reflexivity.
Defined.

(** [ManyToManyColumn(filter=lambda qs: qs.filter(no_such_field=1))] *)
Definition broken_filter (qs : Manager Person) : result (list Person) :=
  Raise (Exception "FieldError" "cannot resolve keyword").

(** [ManyToManyColumn(filter=lambda qs: qs.all()[:1])] and
    [ManyToManyColumn(filter=lambda qs: qs.all()[1:])] *)
Definition first_one (qs : Manager Person) : result (list Person) :=
  Ok (take 1 (all qs)).

Definition all_but_first (qs : Manager Person) : result (list Person) :=
  Ok (drop 1 (all qs)).

(** [ManyToManyColumn(transform=lambda p: 'a friend')] *)
Definition shout (p : Person) : result text := Ok (str "a friend").

(** [ManyToManyColumn(verbose_name='Friends')] *)
Definition friends_column : ManyToManyColumn.instance Person :=
  ManyToManyColumn.__init__ None None None []
    {["verbose_name" := PyText (str "Friends")]}.

Lemma render_escaped_once_witness :
  conditional_escape (Text "Ann, &lt;Bob&gt;, Cy &amp; Di" true)
    = mark_safe (Text "Ann, &lt;Bob&gt;, Cy &amp; Di" true).
Proof.
  apply (render_escaped_once person_text plain_column friends). reflexivity.
Defined.

Lemma render_returns_iff_witness :
  (exists out,
     ManyToManyColumn.render person_text
       (ManyToManyColumn.__init__ (Some name_or_stop) None None [] ∅) guests
     = Ok out) /\
  (exists_ friends = false \/
   exists records,
     ManyToManyColumn.self_filter plain_column friends = Ok records /\
     (Forall (fun r => exists t,
                ManyToManyColumn.self_transform person_text plain_column r = Ok t)
             records \/
      exists pre r post e,
        records = (pre ++ r :: post)%list /\
        Forall (fun r' => exists t,
                  ManyToManyColumn.self_transform person_text plain_column r' = Ok t)
               pre /\
        ManyToManyColumn.self_transform person_text plain_column r = Raise e /\
        stops_iteration e = true)).
Proof.
  split.
  - apply (proj2 (render_returns_iff person_text
                    (ManyToManyColumn.__init__ (Some name_or_stop) None None [] ∅)
                    guests)).
    right. exists (related guests). split; [reflexivity|]. right.
    exists [person "Ann"], unprintable, [person "Cy"],
      (Exception "StopIteration" EmptyString).
    split; [reflexivity|]. split; [|split; reflexivity].
    repeat constructor. exists (str "Ann"). reflexivity.
  - apply (proj1 (render_returns_iff person_text plain_column friends)).
    eexists. reflexivity.
Defined.

Lemma render_propagates_filter_exception_witness :
  (exists_ friends = true ->
   ManyToManyColumn.render person_text
     (ManyToManyColumn.__init__ None (Some broken_filter) None [] ∅) friends
     = Raise (Exception "FieldError" "cannot resolve keyword")) /\
  (exists_ friends = false ->
   ManyToManyColumn.render person_text
     (ManyToManyColumn.__init__ None (Some broken_filter) None [] ∅) friends
     = Ok (str "-")).
Proof.
  apply (render_propagates_filter_exception person_text
           (ManyToManyColumn.__init__ None (Some broken_filter) None [] ∅) friends).
  reflexivity.
Defined.

Lemma render_transform_replaced_witness :
  ManyToManyColumn.self_filter
    (ManyToManyColumn.__init__ (Some shout) (Some last_two) None [] ∅) friends
    = Ok [person "Cy & Di"; person "<Bob>"] /\
  length [str "Cy & Di"; str "<Bob>"] = 2 /\
  length [str "a friend"; str "a friend"] = 2 /\
  ManyToManyColumn.render person_text
    (ManyToManyColumn.__init__ None (Some last_two) None [] ∅) friends
    = Ok (Text "Cy &amp; Di, &lt;Bob&gt;" true) /\
  ManyToManyColumn.render person_text
    (ManyToManyColumn.__init__ (Some shout) (Some last_two) None [] ∅) friends
    = Ok (Text "a friend, a friend" true).
Proof.
  apply (render_transform_replaced person_text None (Some shout) (Some last_two)
           None [] ∅ friends [person "Cy & Di"; person "<Bob>"]
           [str "Cy & Di"; str "<Bob>"] [str "a friend"; str "a friend"]).
  - discriminate.
  - reflexivity.
  - reflexivity.
  - reflexivity.
Defined.

Lemma from_field_render_witness :
  ManyToManyColumn.render person_text friends_column friends
    = Ok (Text "Ann, &lt;Bob&gt;, Cy &amp; Di" true).
Proof.
  apply (from_field_render person_text friends_field friends_column friends
           [str "Ann"; str "<Bob>"; str "Cy & Di"]).
  - reflexivity.
  - discriminate.
  - repeat constructor.
Defined.

Lemma default_filter_placeholder_witness :
  ManyToManyColumn.render person_text plain_column nobody = Ok (str "-").
Proof.
  apply (proj2 (default_filter_placeholder person_text None None [] ∅ nobody)).
  reflexivity.
Defined.

Lemma render_single_ignores_separator_witness :
  ManyToManyColumn.render person_text
    (ManyToManyColumn.__init__ None (Some first_one) None [] ∅) friends
  = ManyToManyColumn.render person_text
      (ManyToManyColumn.__init__ None (Some first_one) (Some (str " | ")) [] ∅) friends.
Proof.
  apply (render_single_ignores_separator person_text None (Some first_one)
           None (Some (str " | ")) [] ∅ friends (person "Ann")).
  reflexivity.
Defined.

Lemma render_append_witness :
  ManyToManyColumn.render person_text
    (ManyToManyColumn.__init__ None None (Some (str " & ")) [] ∅) friends
    = Ok (Text ("Ann" ++ " &amp; " ++ "&lt;Bob&gt; &amp; Cy &amp; Di") true).
Proof.
  apply (render_append person_text None (Some first_one) (Some all_but_first) None
           (Some (str " & ")) [] ∅ friends
           [person "Ann"] [person "<Bob>"; person "Cy & Di"]
           (Text "Ann" true) (Text "&lt;Bob&gt; &amp; Cy &amp; Di" true)).
  - discriminate.
  - discriminate.
  - discriminate.
  - reflexivity.
  - reflexivity.
  - reflexivity.
  - repeat constructor; eexists; reflexivity.
  - reflexivity.
  - reflexivity.
Defined.

(** A tag, whose string conversion gives its name already marked safe,
    and one whose conversion fails to decode. *)
Definition tag_safe : pyobj :=
  ModelInstance "Tag" 1 (Ok (mark_safe (str "<i>new</i>"))).

Definition tag_undecodable : pyobj :=
  ModelInstance "Tag" 2 (Raise (Exception "UnicodeDecodeError" "invalid start byte")).

Lemma default_transform_force_text_witness :
  ManyToManyColumn.self_transform force_text
    (ManyToManyColumn.__init__ None None None [] ∅) tag_safe
    = Ok (Text "<i>new</i>" true) /\
  ManyToManyColumn.self_transform force_text
    (ManyToManyColumn.__init__ None None None [] ∅) tag_undecodable
    = Raise (Exception "DjangoUnicodeDecodeError" "invalid start byte") /\
  ManyToManyColumn.self_transform force_text
    (ManyToManyColumn.__init__ None None None [] ∅) (LazyText (Ok (str "Draft")))
    = Ok (str "Draft").
Proof.
  split; [|split].
  - apply (default_transform_force_text None None [] ∅).
  - apply (default_transform_force_text None None [] ∅).
  - apply (default_transform_force_text None None [] ∅).
Defined.
